(** * Biomedical papers searcher: deduplication, scoring and ranking

    A shallow embedding of the core of [browse_papers.py] (class
    [BiomedicalSearcher] and the validation of [main]) and of the input
    validation of [browse_papers_gui.py] (class [ModernDarkGUI]).

    Python values are modelled as follows.
    - [str] is a [string]: a sequence of code points below 256.  On that
      range [str.lower] adds 32 to A-Z, to U+00C0-U+00D6 and to
      U+00D8-U+00DE, and [str.strip] removes the code points for which
      [str.isspace] holds.
    - a dictionary entry read with [.get] is an [option pyval]: the key may
      be missing, or hold [None], or hold a [str].
    - a raised exception is the [Raise] case of [result].
    - a dictionary that is iterated keeps its insertion order, so it is an
      association list ([odict]). *)

From Stdlib Require Import List String Ascii ZArith Lia Bool Arith.
From Stdlib Require Import Permutation Sorted FinFun.
Import ListNotations.
Open Scope string_scope.
Open Scope list_scope.

(** ** Exceptions *)

Inductive exn : Type :=
| TypeError
| AttributeError
| ValueError.

Inductive result (A : Type) : Type :=
| Ok (a : A)
| Raise (e : exn).

Arguments Ok {A} a.
Arguments Raise {A} e.

Definition bind {A B : Type} (r : result A) (k : A -> result B) : result B :=
  match r with
  | Ok a => k a
  | Raise e => Raise e
  end.

Notation "x <- r ;; k" := (bind r (fun x => k))
  (at level 61, r at next level, right associativity).

(** The body of a [for] loop that may raise, run over a list from the left. *)
Fixpoint foldM {S A : Type} (step : S -> A -> result S) (l : list A) (s : S)
  : result S :=
  match l with
  | [] => Ok s
  | a :: l' => s' <- step s a ;; foldM step l' s'
  end.

(** ** Strings *)

Definition is_upper (c : ascii) : bool :=
  let n := nat_of_ascii c in
  ((65 <=? n) && (n <=? 90)
   || (192 <=? n) && (n <=? 222) && negb (n =? 215))%nat.

Definition lower_char (c : ascii) : ascii :=
  if is_upper c then ascii_of_nat (nat_of_ascii c + 32) else c.

(** [str.lower] *)
Fixpoint lower (s : string) : string :=
  match s with
  | EmptyString => EmptyString
  | String c r => String (lower_char c) (lower r)
  end.

(** [str.isspace] on one code point *)
Definition is_space (c : ascii) : bool :=
  let n := nat_of_ascii c in
  ((9 <=? n) && (n <=? 13) || (28 <=? n) && (n <=? 32)
   || (n =? 133) || (n =? 160))%nat.

Fixpoint lstrip (s : string) : string :=
  match s with
  | EmptyString => EmptyString
  | String c r => if is_space c then lstrip r else s
  end.

Fixpoint rstrip (s : string) : string :=
  match s with
  | EmptyString => EmptyString
  | String c r =>
      match rstrip r with
      | EmptyString => if is_space c then EmptyString else String c EmptyString
      | r' => String c r'
      end
  end.

(** [str.strip] with no argument *)
Definition strip (s : string) : string := rstrip (lstrip s).

(** [needle in hay] on two [str] *)
Fixpoint contains (needle hay : string) : bool :=
  prefix needle hay
  || match hay with
     | EmptyString => false
     | String _ r => contains needle r
     end.

(** ** Python values held by an article *)

Inductive pyval : Type :=
| PyNone
| PyStr (s : string).

(** [d.get(key)]: [None] when the key is missing *)
Definition dict_get (f : option pyval) : pyval :=
  match f with
  | Some v => v
  | None => PyNone
  end.

(** [d.get(key, default)] with a [str] default *)
Definition dict_get_default (f : option pyval) (default : string) : pyval :=
  match f with
  | Some v => v
  | None => PyStr default
  end.

(** Truth value of [None] or of a [str] *)
Definition truthy (v : pyval) : bool :=
  match v with
  | PyNone => false
  | PyStr s => negb (s =? "")
  end.

(** [v == s] for a [str] literal [s] *)
Definition py_eq_str (v : pyval) (s : string) : bool :=
  match v with
  | PyNone => false
  | PyStr t => t =? s
  end.

(** [len(v)]: [None] has no length *)
Definition py_len (v : pyval) : result nat :=
  match v with
  | PyNone => Raise TypeError
  | PyStr s => Ok (String.length s)
  end.

(** [v.lower()]: [None] has no such method *)
Definition py_lower (v : pyval) : result string :=
  match v with
  | PyNone => Raise AttributeError
  | PyStr s => Ok (lower s)
  end.

(** ** Dates

    A naive [datetime]; comparison is the lexicographic order of its
    fields, as in Python. *)

Record datetime : Type := mk_datetime {
  dt_year : Z;
  dt_month : Z;
  dt_day : Z;
  dt_hour : Z;
  dt_minute : Z;
  dt_second : Z;
  dt_microsecond : Z
}.

Definition dt_tuple (d : datetime) : list Z :=
  [dt_year d; dt_month d; dt_day d; dt_hour d; dt_minute d; dt_second d;
   dt_microsecond d].

Fixpoint lex_compare (a b : list Z) : comparison :=
  match a, b with
  | [], [] => Eq
  | [], _ :: _ => Lt
  | _ :: _, [] => Gt
  | x :: a', y :: b' =>
      match (x ?= y)%Z with
      | Eq => lex_compare a' b'
      | c => c
      end
  end.

Definition dt_compare (a b : datetime) : comparison :=
  lex_compare (dt_tuple a) (dt_tuple b).

(** [a < b] on [datetime] *)
Definition dt_ltb (a b : datetime) : bool :=
  match dt_compare a b with
  | Lt => true
  | _ => false
  end.

Definition dt_eqb (a b : datetime) : bool :=
  match dt_compare a b with
  | Eq => true
  | _ => false
  end.

(** ** Articles

    The dictionary built by the three adapters.  [published], [url],
    [source] and [authors] are set by every adapter; [title] and [abstract]
    are read with [.get], so they may be missing or [None]; [score] and
    [matched_keywords] are missing until [rank_articles] sets them. *)

Record Article : Type := mk_Article {
  title : option pyval;
  abstract : option pyval;
  published : datetime;
  url : string;
  source : string;
  authors : list string;
  score : option nat;
  matched_keywords : option (list string)
}.

(** [art.get('abstract', '')] *)
Definition get_abstract (art : Article) : pyval :=
  dict_get_default (abstract art) "".

(** ** The searcher *)

Record BiomedicalSearcher : Type := mk_BiomedicalSearcher {
  keywords : list string;
  days : Z
}.

(** [BiomedicalSearcher.__init__]; [cutoff_date] is read by the adapters
    only and is left out. *)
Definition __init__ (keywords : list string) (days : Z) : BiomedicalSearcher :=
  mk_BiomedicalSearcher (map lower keywords) days.

(** [BiomedicalSearcher.calculate_score] *)
Definition calculate_score (self : BiomedicalSearcher) (article : Article)
  : result (nat * list string) :=
  let title := dict_get_default (title article) "" in
  let abstract := get_abstract article in
  title_lower <- (if truthy title then py_lower title else Ok "") ;;
  abstract_lower <- (if truthy abstract then py_lower abstract else Ok "") ;;
  let matched_keywords :=
    fold_left
      (fun matched keyword =>
         if contains keyword title_lower || contains keyword abstract_lower
         then matched ++ [keyword]
         else matched)
      (keywords self) [] in
  Ok (List.length matched_keywords, matched_keywords).

(** ** Insertion-ordered dictionaries *)

Section OrderedDict.
Context {K V : Type} (eqb : K -> K -> bool).

Definition odict : Type := list (K * V).

(** [d.get(k)] as an option; [k in d] is [od_get d k <> None] *)
Fixpoint od_get (d : odict) (k : K) : option V :=
  match d with
  | [] => None
  | (k', v) :: d' => if eqb k' k then Some v else od_get d' k
  end.

(** [d[k] = v]: a key that is present keeps its place, a new key goes
    last *)
Fixpoint od_set (d : odict) (k : K) (v : V) : odict :=
  match d with
  | [] => [(k, v)]
  | (k', v') :: d' =>
      if eqb k' k then (k', v) :: d' else (k', v') :: od_set d' k v
  end.

(** [d.keys()] and [d.values()], in iteration order *)
Definition od_keys (d : odict) : list K := map fst d.
Definition od_values (d : odict) : list V := map snd d.
End OrderedDict.

Arguments odict K V : clear implicits.

(** ** Deduplication: the loop of [BiomedicalSearcher.search_all] *)

(** One iteration of [for art in all_articles] over the dictionary
    [unique]; [continue] leaves [unique] as it is. *)
Definition search_all_step (unique : odict string Article) (art : Article)
  : result (odict string Article) :=
  let title := dict_get (title art) in
  if negb (truthy title) || py_eq_str title "N/A" then Ok unique
  else
    title_lower <- py_lower title ;;
    let title_clean := strip title_lower in
    let abstract := get_abstract art in
    match od_get String.eqb unique title_clean with
    | None => Ok (od_set String.eqb unique title_clean art)
    | Some stored =>
        n <- py_len abstract ;;
        m <- py_len (get_abstract stored) ;;
        if (m <? n)%nat then Ok (od_set String.eqb unique title_clean art)
        else Ok unique
    end.

(** [unique = {}], the loop, and [deduplicated = list(unique.values())] *)
Definition deduplicate (all_articles : list Article) : result (list Article) :=
  unique <- foldM search_all_step all_articles [] ;;
  Ok (od_values unique).

(** [BiomedicalSearcher.search_all], given what the three adapters
    returned *)
Definition search_all (pubmed biorxiv europepmc : list Article)
  : result (list Article) :=
  deduplicate (pubmed ++ biorxiv ++ europepmc).

(** ** Ranking: [BiomedicalSearcher.rank_articles] *)

(** [list.sort(key=lambda x: x['published'], reverse=True)].  The library
    sort is stable, and with [reverse=True] elements with equal keys keep
    their order: an element moves behind the ones with a strictly later
    date only. *)
Fixpoint insert_published (x : Article) (l : list Article) : list Article :=
  match l with
  | [] => [x]
  | y :: l' =>
      if dt_ltb (published x) (published y)
      then y :: insert_published x l'
      else x :: l
  end.

Definition sort_published_reverse (l : list Article) : list Article :=
  fold_right insert_published [] l.

(** [article['score'] = score; article['matched_keywords'] = matched_kws].
    The source updates the dictionary in place; the two values depend on
    the title and the abstract only, which the update leaves alone, so an
    article object that stands twice in the list gets the same values both
    times and the copy made here tells the same story. *)
Definition set_score (article : Article) (s : nat) (matched_kws : list string)
  : Article :=
  mk_Article (title article) (abstract article) (published article)
    (url article) (source article) (authors article)
    (Some s) (Some matched_kws).

(** [ranked[score].append(article)] on a [defaultdict(list)] *)
Definition dd_append (ranked : odict nat (list Article)) (s : nat)
  (article : Article) : odict nat (list Article) :=
  match od_get Nat.eqb ranked s with
  | Some group => od_set Nat.eqb ranked s (group ++ [article])
  | None => od_set Nat.eqb ranked s [article]
  end.

Definition rank_articles_step (self : BiomedicalSearcher)
  (ranked : odict nat (list Article)) (article : Article)
  : result (odict nat (list Article)) :=
  r <- calculate_score self article ;;
  let '(s, matched_kws) := r in
  if (0 <? s)%nat then Ok (dd_append ranked s (set_score article s matched_kws))
  else Ok ranked.

Definition rank_articles (self : BiomedicalSearcher) (articles : list Article)
  : result (odict nat (list Article)) :=
  ranked <- foldM (rank_articles_step self) articles [] ;;
  Ok (map (fun kv => (fst kv, sort_published_reverse (snd kv))) ranked).

(** ** Dates of PubMed records: [_parse_month] and the date block of
    [search_pubmed] *)

Definition is_digit (c : ascii) : bool :=
  let n := nat_of_ascii c in ((48 <=? n) && (n <=? 57))%nat.

Definition digit_value (c : ascii) : Z := Z.of_nat (nat_of_ascii c - 48).

(** Decimal digits, with single underscores between digits *)
Fixpoint int_digits (s : string) (acc : Z) (after_digit : bool) : option Z :=
  match s with
  | EmptyString => if after_digit then Some acc else None
  | String c r =>
      if is_digit c then int_digits r (10 * acc + digit_value c)%Z true
      else if (c =? "_")%char && after_digit then int_digits r acc false
      else None
  end.

(** The white space that [int] passes over at both ends of a [str] of code
    points below 256: the six ASCII characters of C's [isspace], and
    U+0085 and U+00A0, which [int] first turns into a space.  U+001C to
    U+001F, which [str.strip] removes, are not among them. *)
Definition is_int_space (c : ascii) : bool :=
  let n := nat_of_ascii c in
  ((9 <=? n) && (n <=? 13) || (n =? 32) || (n =? 133) || (n =? 160))%nat.

Fixpoint int_lstrip (s : string) : string :=
  match s with
  | EmptyString => EmptyString
  | String c r => if is_int_space c then int_lstrip r else s
  end.

Fixpoint int_rstrip (s : string) : string :=
  match s with
  | EmptyString => EmptyString
  | String c r =>
      match int_rstrip r with
      | EmptyString =>
          if is_int_space c then EmptyString else String c EmptyString
      | r' => String c r'
      end
  end.

(** The number of decimal digits of a string *)
Fixpoint digit_count (s : string) : nat :=
  match s with
  | EmptyString => 0
  | String c r => (if is_digit c then 1 else 0) + digit_count r
  end.

(** [sys.get_int_max_str_digits()], at its default: [int] refuses a text
    with more digits. *)
Definition int_max_str_digits : nat := 4300.

(** Sign and digits of [int(s)], the white space around them removed *)
Definition int_body (body : string) : option Z :=
  if (int_max_str_digits <? digit_count body)%nat then None
  else int_digits body 0 false.

(** [int(s)] on a [str]: surrounding white space, an optional sign, digits *)
Definition int_of_str (s : string) : option Z :=
  match int_rstrip (int_lstrip s) with
  | String "+" r => int_body r
  | String "-" r => option_map Z.opp (int_body r)
  | r => int_body r
  end.

(** [int(v)] *)
Definition py_int (v : pyval) : result Z :=
  match v with
  | PyNone => Raise TypeError
  | PyStr s =>
      match int_of_str s with
      | Some n => Ok n
      | None => Raise ValueError
      end
  end.

(** The dictionary [months] of [_parse_month] *)
Definition months : odict string Z :=
  [("jan", 1); ("feb", 2); ("mar", 3); ("apr", 4); ("may", 5); ("jun", 6);
   ("jul", 7); ("aug", 8); ("sep", 9); ("oct", 10); ("nov", 11); ("dec", 12);
   ("january", 1); ("february", 2); ("march", 3); ("april", 4); ("june", 6);
   ("july", 7); ("august", 8); ("september", 9); ("october", 10);
   ("november", 11); ("december", 12)]%Z.

(** [BiomedicalSearcher._parse_month] *)
Definition _parse_month (month_str : pyval) : result Z :=
  match py_int month_str with
  | Ok n => Ok n
  | Raise _ =>
      month_lower <- py_lower month_str ;;
      match od_get String.eqb months (substring 0 3 month_lower) with
      | Some n => Ok n
      | None => Ok 1%Z
      end
  end.

Definition is_leap (y : Z) : bool :=
  ((y mod 4 =? 0) && (negb (y mod 100 =? 0) || (y mod 400 =? 0)))%Z.

Definition days_in_month (y m : Z) : Z :=
  (if m =? 2 then (if is_leap y then 29 else 28)
   else if (m =? 4) || (m =? 6) || (m =? 9) || (m =? 11) then 30
   else 31)%Z.

Definition valid_date (y m d : Z) : bool :=
  ((1 <=? y) && (y <=? 9999) && (1 <=? m) && (m <=? 12)
   && (1 <=? d) && (d <=? days_in_month y m))%Z.

(** [datetime(year, month, day)] *)
Definition datetime_ymd (y m d : Z) : result datetime :=
  if valid_date y m d then Ok (mk_datetime y m d 0 0 0 0)
  else Raise ValueError.

(** The [try] block of [search_pubmed] that sets [pub_date].  An element is
    [None] when [find] found nothing, and otherwise holds its [.text];
    [now] is what [datetime.now()] returns. *)
Definition search_pubmed_pub_date (now : datetime)
  (year_elem month_elem day_elem : option pyval) : datetime :=
  let attempt :=
    year <- match year_elem with
            | Some text => py_int text
            | None => Ok (dt_year now)
            end ;;
    month <- _parse_month match month_elem with
                          | Some text => text
                          | None => PyStr "1"
                          end ;;
    day <- match day_elem with
           | Some text => py_int text
           | None => Ok 1%Z
           end ;;
    datetime_ymd year month day in
  match attempt with
  | Ok pub_date => pub_date
  | Raise _ => now
  end.

(** ** Entry points: validation before the search *)

(** What an entry point does with a query: it refuses it with a message,
    or an exception is logged, or it builds the searcher and calls
    [search_all], which calls the three adapters. *)
Inductive outcome : Type :=
| Rejected (msg : string)
| Failed (e : exn)
| AdaptersInvoked (searcher : BiomedicalSearcher).

(** [main] of [browse_papers.py], from the parsed arguments on;
    [parser.error] prints the message and exits. *)
Definition main (args_keywords : list string) (args_days : Z) : outcome :=
  if (args_days <=? 0)%Z then Rejected "--days must be a positive number"
  else
    match args_keywords with
    | [] => Rejected "--keywords must contain at least one keyword"
    | _ :: _ => AdaptersInvoked (__init__ args_keywords args_days)
    end.

(** The variables of [ModernDarkGUI] that the search reads, for a window
    whose three [IntVar] fields hold integers; [ModernDarkGUI_fields] below
    is the window whose fields may hold a text that is no number, on which
    [IntVar.get()] raises [TclError]. *)
Record ModernDarkGUI : Type := mk_ModernDarkGUI {
  keywords_list : list string;
  year_mode_var : string;
  days_var : Z;
  years_back_var : Z;
  start_year_var : Z;
  end_year_var : Z;
  save_var : bool;
  export_path : string
}.

(** [ModernDarkGUI.validate_inputs]: [None] when it returns [True], and the
    message of the error box when it returns [False]. *)
Definition validate_inputs (self : ModernDarkGUI) : option string :=
  match keywords_list self with
  | [] => Some "Add at least one keyword!"
  | _ :: _ =>
      if (year_mode_var self =? "specific")
         && (end_year_var self <? start_year_var self)%Z
      then Some "Start year must be <= end year!"
      else if save_var self && (export_path self =? "")
      then Some "Select an export folder!"
      else None
  end.

(** [ModernDarkGUI.calculate_days]; [current_year] is
    [datetime.now().year]. *)
Definition calculate_days (self : ModernDarkGUI) (current_year : Z)
  : result Z :=
  let mode := year_mode_var self in
  if mode =? "days" then Ok (days_var self)
  else if mode =? "years" then Ok (years_back_var self * 365)%Z
  else if mode =? "specific" then
    let start := start_year_var self in
    let end_ := end_year_var self in
    if (end_ <? start)%Z then Raise ValueError
    else Ok ((current_year - start) * 365 + 30)%Z
  else Ok 30%Z.

(** [ModernDarkGUI.perform_search] up to the call of [search_all] *)
Definition perform_search (self : ModernDarkGUI) (current_year : Z)
  : outcome :=
  match calculate_days self current_year with
  | Raise e => Failed e
  | Ok days => AdaptersInvoked (__init__ (keywords_list self) days)
  end.

(** [ModernDarkGUI.start_search] *)
Definition start_search (self : ModernDarkGUI) (current_year : Z) : outcome :=
  match validate_inputs self with
  | Some msg => Rejected msg
  | None => perform_search self current_year
  end.

(** ** Specification-side readings *)

(** A field read as text: a missing field or [None] counts as the empty
    string. *)
Definition text_of (f : option pyval) : string :=
  match f with
  | Some (PyStr s) => s
  | _ => ""
  end.

(** The keywords of [self] found in the lower-cased title or abstract *)
Definition matched_of (self : BiomedicalSearcher) (article : Article)
  : list string :=
  filter
    (fun keyword =>
       contains keyword (lower (text_of (title article)))
       || contains keyword (lower (text_of (abstract article))))
    (keywords self).

(** Case-insensitive substring test, as the specification words it *)
Definition ci_contains (keyword text : string) : bool :=
  contains (lower keyword) (lower text).

(** The specification's matched keywords: the keywords, in their own order,
    that occur case-insensitively in the title or in the abstract *)
Definition spec_matched_keywords (kws : list string) (article : Article)
  : list string :=
  filter
    (fun keyword =>
       ci_contains keyword (text_of (title article))
       || ci_contains keyword (text_of (abstract article)))
    kws.

(** The article with a missing or [None] title or abstract replaced by the
    empty string *)
Definition with_text_fields (article : Article) : Article :=
  mk_Article (Some (PyStr (text_of (title article))))
    (Some (PyStr (text_of (abstract article))))
    (published article) (url article) (source article) (authors article)
    (score article) (matched_keywords article).

(** The key under which the loop of [search_all] files an article: the
    lower-cased, trimmed title; [None] for an article the loop skips. *)
Definition dedup_key (art : Article) : option string :=
  match title art with
  | Some (PyStr s) =>
      if (s =? "") || (s =? "N/A") then None else Some (strip (lower s))
  | _ => None
  end.

(** The abstract of [b] is strictly shorter than the one of [a], both being
    text. *)
Definition abstract_lt (b a : Article) : Prop :=
  exists n m,
    py_len (get_abstract b) = Ok n /\ py_len (get_abstract a) = Ok m /\ n < m.

(** The abstract of [b] is at most as long as the one of [a], both being
    text. *)
Definition abstract_le (b a : Article) : Prop :=
  exists n m,
    py_len (get_abstract b) = Ok n /\ py_len (get_abstract a) = Ok m /\ n <= m.

(** The title is a text other than the empty string and ["N/A"]. *)
Definition has_title (art : Article) : Prop :=
  exists s, title art = Some (PyStr s) /\ s <> "" /\ s <> "N/A".

(** [a] is the survivor of the articles of [p] filed under [k]: it occurs
    in [p], every such article before it has a strictly shorter abstract,
    and every such article after it has an abstract that is not longer.  So
    [a] is the first of the articles with the longest abstract. *)
Definition survivor_of (p : list Article) (k : string) (a : Article) : Prop :=
  exists p1 p2,
    p = p1 ++ a :: p2
    /\ (forall b, In b p1 -> dedup_key b = Some k -> abstract_lt b a)
    /\ (forall b, In b p2 -> dedup_key b = Some k -> abstract_le b a).

(** What the loop of [search_all] maintains between the articles [p] read
    so far and the dictionary [unique]. *)
Definition dedup_inv (p : list Article) (unique : odict string Article)
  : Prop :=
  NoDup (od_keys unique)
  /\ (forall k a, In (k, a) unique -> dedup_key a = Some k /\ survivor_of p k a)
  /\ (forall b k, In b p -> dedup_key b = Some k ->
                  od_get String.eqb unique k <> None).

(** ** Sample data *)

Definition sample_date (y m d : Z) : datetime := mk_datetime y m d 0 0 0 0.

Definition sample_article (t a src : string) (d : datetime) : Article :=
  mk_Article (Some (PyStr t)) (Some (PyStr a)) d "N/A" src ["N/A"] None None.

(** Two records of one work whose abstracts have the same length *)
Definition tie_first : Article :=
  sample_article "Study X" "aaaa" "PubMed" (sample_date 2024 1 1).
Definition tie_last : Article :=
  sample_article "Study X" "bbbb" "bioRxiv" (sample_date 2024 1 1).

(** The specification's pair: case and white-space variants of one title,
    with abstracts of 10 and 50 characters *)
Definition study_x_short : Article :=
  sample_article "Study X" "0123456789" "PubMed" (sample_date 2024 1 1).
Definition study_x_long : Article :=
  sample_article "study x "
    "01234567890123456789012345678901234567890123456789"
    "Europe PMC" (sample_date 2024 6 1).

(** A record whose title is one space *)
Definition blank_title : Article :=
  sample_article " " "p53 again" "PubMed" (sample_date 2024 1 1).

(** ** Specification-side readings of the ranking *)

(** [rank_articles] keeps the article: its score is positive. *)
Definition positive (self : BiomedicalSearcher) (article : Article) : bool :=
  match calculate_score self article with
  | Ok (s, _) => (0 <? s)%nat
  | Raise _ => false
  end.

(** The article with the result of [calculate_score] attached *)
Definition scored_article (self : BiomedicalSearcher) (article : Article)
  : Article :=
  match calculate_score self article with
  | Ok (s, matched) => set_score article s matched
  | Raise _ => article
  end.

(** The articles with a positive score, in input order, score attached *)
Definition scored (self : BiomedicalSearcher) (articles : list Article)
  : list Article :=
  map (scored_article self) (filter (positive self) articles).

Definition has_score (k : nat) (a : Article) : bool :=
  match score a with
  | Some s => (s =? k)%nat
  | None => false
  end.

(** The scored articles whose score is [k], in input order *)
Definition group_of (self : BiomedicalSearcher) (k : nat)
  (articles : list Article) : list Article :=
  filter (has_score k) (scored self articles).

(** [sum(len(articles) for articles in ranked.values())] *)
Definition total_size (ranked : odict nat (list Article)) : nat :=
  list_sum (map (@List.length Article) (od_values ranked)).

Definition nonempty_opt {A : Type} (l : list A) : option (list A) :=
  match l with
  | [] => None
  | _ :: _ => Some l
  end.

(** [a] is not older than [b]. *)
Definition not_older (a b : Article) : Prop :=
  dt_ltb (published a) (published b) = false.

Definition published_on (d : datetime) (a : Article) : bool :=
  dt_eqb (published a) d.

(** What the first loop of [rank_articles] maintains between the articles
    [p] read so far and the dictionary [ranked]. *)
Definition rank_inv (self : BiomedicalSearcher) (p : list Article)
  (ranked : odict nat (list Article)) : Prop :=
  NoDup (od_keys ranked)
  /\ (forall k, od_get Nat.eqb ranked k = nonempty_opt (group_of self k p))
  /\ total_size ranked = List.length (scored self p).

(** A query and a batch: three articles with one match, two of them of the
    same date, one article with two matches and one with none *)
Definition p53_searcher : BiomedicalSearcher := __init__ ["P53"; "cancer"] 30.

Definition rec_jan : Article :=
  sample_article "p53 in January" "" "PubMed" (sample_date 2024 1 1).
Definition rec_jun : Article :=
  sample_article "P53 in June" "" "bioRxiv" (sample_date 2024 6 1).
Definition rec_dec : Article :=
  sample_article "p53 in December" "" "PubMed" (sample_date 2023 12 1).
Definition rec_jan_bis : Article :=
  sample_article "Again in January" "on p53" "Europe PMC" (sample_date 2024 1 1).
Definition rec_both : Article :=
  sample_article "p53 mutation in breast cancer" "" "PubMed"
    (sample_date 2024 3 1).
Definition rec_none : Article :=
  sample_article "Unrelated" "nothing here" "PubMed" (sample_date 2024 2 1).

Definition sample_batch : list Article :=
  [rec_jan; rec_none; rec_jun; rec_both; rec_dec; rec_jan_bis].

Definition sample_ranked : odict nat (list Article) :=
  [(1, [set_score rec_jun 1 ["p53"]; set_score rec_jan 1 ["p53"];
        set_score rec_jan_bis 1 ["p53"]; set_score rec_dec 1 ["p53"]]);
   (2, [set_score rec_both 2 ["p53"; "cancer"]])].

(** A record with the sentinel title, and one with no title at all *)
Definition na_title : Article :=
  sample_article "N/A" "p53 without a title" "Europe PMC" (sample_date 2024 5 1).
Definition no_title : Article :=
  mk_Article None (Some (PyStr "p53")) (sample_date 2024 5 1) "N/A" "PubMed"
    ["N/A"] None None.


(** A value of [datetime.now()] *)
Definition sample_now : datetime := mk_datetime 2026 11 4 12 0 0 0.

(** The state of the window after one keyword was added and 0 was typed
    into the field of the number of days *)
Definition gui_zero_days : ModernDarkGUI :=
  mk_ModernDarkGUI ["p53"] "days" 0 1 2026 2026 false "".

(** The state of the window with a range of years that starts after the
    current year *)
Definition gui_future_range : ModernDarkGUI :=
  mk_ModernDarkGUI ["p53"] "specific" 30 1 2030 2031 false "".

(** ** The adapters: how a raw record becomes an article *)

(** [range(start, stop, step)] for a positive [step]; its length is
    [(stop - start + step - 1) // step], and 0 when [stop <= start]. *)
Definition py_range (start stop step : nat) : list nat :=
  map (fun j => start + step * j) (seq 0 ((stop - start + step - 1) / step)).

(** [l[i:j]] for [0 <= i <= j] *)
Definition py_slice {A : Type} (l : list A) (i j : nat) : list A :=
  firstn (j - i) (skipn i l).

(** The batches of [search_pubmed]:
    [for i in range(0, len(id_list), 50): batch_ids = id_list[i:i + 50]] *)
Definition search_pubmed_batches (id_list : list string) : list (list string) :=
  map (fun i => py_slice id_list i (i + 50))
    (py_range 0 (List.length id_list) 50).

(** [str(v)] as an f-string renders it *)
Definition py_format (v : pyval) : string :=
  match v with
  | PyNone => "None"
  | PyStr s => s
  end.

(** An [Author] element: what [find('.//LastName')] and
    [find('.//ForeName')] return, [None] when there is no such child and
    the child's [.text] otherwise *)
Record AuthorElem : Type := mk_AuthorElem {
  LastName : option pyval;
  ForeName : option pyval
}.

(** The loop over [article_elem.findall('.//Author')[:3]] of
    [search_pubmed] *)
Definition search_pubmed_author_names (author_elems : list AuthorElem)
  : list pyval :=
  fold_left
    (fun authors author =>
       match LastName author with
       | Some lastname_text =>
           let name :=
             match ForeName author with
             | Some forename_text =>
                 PyStr (py_format forename_text ++ " "
                        ++ py_format lastname_text)%string
             | None => lastname_text
             end in
           authors ++ [name]
       | None => authors
       end)
    (firstn 3 author_elems) [].

(** ['authors': authors if authors else ['N/A']] *)
Definition search_pubmed_authors (author_elems : list AuthorElem)
  : list pyval :=
  match search_pubmed_author_names author_elems with
  | [] => [PyStr "N/A"]
  | authors => authors
  end.

(** The abstract of a PubMed record, from the [.text] of its
    [AbstractText] elements *)
Definition search_pubmed_abstract (abstract_texts : list pyval) : string :=
  let abstract_parts :=
    fold_left
      (fun parts text =>
         match text with
         | PyStr s => if truthy text then parts ++ [s] else parts
         | PyNone => parts
         end)
      abstract_texts [] in
  match abstract_parts with
  | [] => "[No abstract available]"
  | _ :: _ => String.concat " " abstract_parts
  end.

(** [has_keyword] of [search_biorxiv], from what [paper.get('title')] and
    [paper.get('abstract')] hold *)
Definition search_biorxiv_has_keyword (self : BiomedicalSearcher)
  (paper_title paper_abstract : option pyval) : result bool :=
  let title := dict_get_default paper_title "N/A" in
  let abstract := dict_get_default paper_abstract "[No abstract]" in
  title_lower <- py_lower title ;;
  abstract_lower <- py_lower abstract ;;
  let text_to_search := (title_lower ++ " " ++ abstract_lower)%string in
  Ok (existsb (fun kw => contains kw text_to_search) (keywords self)).

(** ** Presentation *)

(** [authors_str] of [display_results] *)
Definition display_results_authors_str (article : Article) : string :=
  let authors_str := String.concat ", " (authors article) in
  if (70 <? String.length authors_str)%nat
  then (substring 0 67 authors_str ++ "...")%string
  else authors_str.

(** [abstract_preview] of [display_results] *)
Definition display_results_abstract_preview (article : Article)
  : result string :=
  let abstract := get_abstract article in
  let abstract_preview :=
    match abstract with
    | PyStr s => if truthy abstract then substring 0 150 s else "[No abstract]"
    | PyNone => "[No abstract]"
    end in
  n <- py_len abstract ;;
  Ok (if (150 <? n)%nat then (abstract_preview ++ "...")%string
      else abstract_preview).

(** [authors_str] of [DocxExporter.export] *)
Definition export_authors_str (article : Article) : string :=
  let authors_str := String.concat ", " (authors article) in
  if (150 <? String.length authors_str)%nat
  then (substring 0 147 authors_str ++ "...")%string
  else authors_str.

(** [abstract_text] of [DocxExporter.export] *)
Definition export_abstract_text (article : Article) : result string :=
  let abstract := get_abstract article in
  let abstract_text :=
    match abstract with
    | PyStr s =>
        if truthy abstract then substring 0 500 s
        else "[No abstract available]"
    | PyNone => "[No abstract available]"
    end in
  n <- py_len abstract ;;
  Ok (if (500 <? n)%nat then (abstract_text ++ "...")%string
      else abstract_text).

(** [s.replace(old, new)] for two strings of one character *)
Fixpoint replace_char (old new : ascii) (s : string) : string :=
  match s with
  | EmptyString => EmptyString
  | String c r =>
      String (if (c =? old)%char then new else c) (replace_char old new r)
  end.

(** [keywords_slug] of [DocxExporter.export]:
    ['_'.join(self.keywords[:3])[:30].replace(' ', '_')] *)
Definition keywords_slug (exporter_keywords : list string) : string :=
  replace_char " " "_"
    (substring 0 30 (String.concat "_" (firstn 3 exporter_keywords))).

(** [sorted(keys, reverse=True)] on integers *)
Fixpoint insert_reverse (x : nat) (l : list nat) : list nat :=
  match l with
  | [] => [x]
  | y :: l' => if (x <? y)%nat then y :: insert_reverse x l' else x :: l
  end.

Definition sorted_reverse (l : list nat) : list nat :=
  fold_right insert_reverse [] l.

(** The order in which [display_results], [DocxExporter.export] and
    [perform_search] visit the groups:
    [for score in sorted(ranked_articles.keys(), reverse=True)] *)
Definition display_order (ranked_articles : odict nat (list Article))
  : list nat :=
  sorted_reverse (od_keys ranked_articles).

(** ** The keyword list of the window *)

(** [ModernDarkGUI.add_keyword] on [keywords_list], given the text of the
    entry field *)
Definition add_keyword (keywords_list : list string) (entry : string)
  : list string :=
  let keyword := strip entry in
  if negb (keyword =? "") && negb (existsb (String.eqb keyword) keywords_list)
  then keywords_list ++ [keyword]
  else keywords_list.

(** [ModernDarkGUI.remove_keyword] on [keywords_list], given
    [curselection()]: the empty selection leaves the list alone, otherwise
    [del self.keywords_list[index]] with the first selected index; [None]
    stands for the [IndexError] of an index outside the list. *)
Definition remove_keyword (keywords_list : list string)
  (selection : list nat) : option (list string) :=
  match selection with
  | [] => Some keywords_list
  | index :: _ =>
      if (index <? List.length keywords_list)%nat
      then Some (firstn index keywords_list ++ skipn (S index) keywords_list)
      else None
  end.

(** What the user does to the keyword list *)
Inductive keyword_event : Type :=
| AddKeyword (entry : string)
| RemoveKeyword (selection : list nat).

Definition keyword_step (keywords_list : list string) (ev : keyword_event)
  : option (list string) :=
  match ev with
  | AddKeyword entry => Some (add_keyword keywords_list entry)
  | RemoveKeyword selection => remove_keyword keywords_list selection
  end.

(** A session: the events one after the other, up to the first error *)
Fixpoint keyword_session (keywords_list : list string)
  (events : list keyword_event) : option (list string) :=
  match events with
  | [] => Some keywords_list
  | ev :: events' =>
      match keyword_step keywords_list ev with
      | Some keywords_list' => keyword_session keywords_list' events'
      | None => None
      end
  end.

(** ** Specification-side readings of the deduplication order *)

(** The keys of the articles of [l] that take part, each once, in the
    order in which they first occur *)
Definition keys_in_order (l : list Article) : list string :=
  fold_left
    (fun seen a =>
       match dedup_key a with
       | Some k => if existsb (String.eqb k) seen then seen else seen ++ [k]
       | None => seen
       end)
    l [].

(** An author element with both names, one with a last name only and one
    with no last name *)
Definition author_full : AuthorElem :=
  mk_AuthorElem (Some (PyStr "Curie")) (Some (PyStr "Marie")).
Definition author_last_only : AuthorElem :=
  mk_AuthorElem (Some (PyStr "Consortium")) None.
Definition author_collective : AuthorElem := mk_AuthorElem None None.

(** The articles of every group of a ranking, group after group *)
Definition ranked_articles (ranked : odict nat (list Article)) : list Article :=
  List.concat (od_values ranked).

(** Two records of one work from two adapters: the later one has the longer
    abstract, or an abstract of the same length *)
Definition pubmed_record : Article :=
  sample_article "p53 and Repair" "short" "PubMed" (sample_date 2024 1 1).
Definition europepmc_same : Article :=
  sample_article "P53 and repair" "SHORT" "Europe PMC" (sample_date 2024 1 2).
Definition europepmc_longer : Article :=
  sample_article "P53 and repair " "a longer abstract" "Europe PMC"
    (sample_date 2024 1 2).

(** A session at the keyword list: two spellings of one keyword, a
    duplicate, an empty entry, and the removal of the first keyword *)
Definition sample_events : list keyword_event :=
  [AddKeyword " p53 "; AddKeyword "P53"; AddKeyword "p53"; AddKeyword "  ";
   AddKeyword "breast cancer"; RemoveKeyword [0]].

(** ** Author strings of Europe PMC and bioRxiv *)

(** The scan of [s.split(sep)]: [cur] is the piece being read, and [skip]
    counts the characters of a separator just found that are still to be
    passed over. *)
Fixpoint split_go (sep s : string) (skip : nat) (cur : string) : list string :=
  match s with
  | EmptyString => [cur]
  | String c r =>
      match skip with
      | S k => split_go sep r k cur
      | O =>
          if prefix sep s
          then cur :: split_go sep r (String.length sep - 1) EmptyString
          else split_go sep r 0 (cur ++ String c EmptyString)%string
      end
  end.

(** [v.split(sep)]: [None] has no such method, and an empty separator is a
    [ValueError]. *)
Definition py_split (v : pyval) (sep : string) : result (list string) :=
  match v with
  | PyNone => Raise AttributeError
  | PyStr s =>
      if (sep =? "")%string then Raise ValueError
      else Ok (split_go sep s 0 EmptyString)
  end.

(** [author_list] of [search_europepmc]:
    [paper.get('authorString', 'N/A').split(', ')[:3]] *)
Definition search_europepmc_authors (authorString : option pyval)
  : result (list string) :=
  parts <- py_split (dict_get_default authorString "N/A") ", " ;;
  Ok (firstn 3 parts).

(** [authors] of [search_biorxiv]:
    [[a.strip() for a in authors_str.split(';')[:3]]] *)
Definition search_biorxiv_authors (paper_authors : option pyval)
  : result (list string) :=
  parts <- py_split (dict_get_default paper_authors "N/A") ";" ;;
  Ok (map strip (firstn 3 parts)).

(** The string without its first [n] characters *)
Fixpoint str_drop (n : nat) (s : string) : string :=
  match n, s with
  | O, _ => s
  | S _, EmptyString => EmptyString
  | S k, String _ r => str_drop k r
  end.

(** A text of [n] digits 9 *)
Fixpoint nines (n : nat) : string :=
  match n with
  | O => EmptyString
  | S k => String "9" (nines k)
  end.

(** The texts of the [AbstractText] elements that are not empty, in
    order *)
Definition text_parts (abstract_texts : list pyval) : list string :=
  flat_map
    (fun text =>
       match text with
       | PyStr s => if (s =? "")%string then [] else [s]
       | PyNone => []
       end)
    abstract_texts.

Definition has_LastName (author : AuthorElem) : bool :=
  match LastName author with
  | Some _ => true
  | None => false
  end.

(** The same work as a preprint, with an abstract of the same length *)
Definition biorxiv_same : Article :=
  sample_article "p53 And Repair" "Short" "bioRxiv" (sample_date 2023 12 1).

(** ** The window with its entry fields

    [tk.IntVar.get()] returns the integer that a field holds and raises
    [TclError] when the text of the field is no number.  The field of the
    days and the two fields of the years are typed into by the user; below
    [None] stands for a text on which [get()] raises.  [years_back_var] is
    set by buttons only.  [ModernDarkGUI] above is the window whose three
    fields hold integers. *)
Record ModernDarkGUI_fields : Type := mk_ModernDarkGUI_fields {
  f_keywords_list : list string;
  f_year_mode_var : string;
  f_days_var : option Z;
  f_years_back_var : Z;
  f_start_year_var : option Z;
  f_end_year_var : option Z;
  f_save_var : bool;
  f_export_path : string
}.

Inductive gui_error : Type :=
| TclError
| PyError (e : exn).

(** What [start_search] does: it refuses the input with a message; or an
    exception leaves [start_search] itself, and no search is started; or
    [perform_search] catches an exception and logs it; or the adapters are
    called. *)
Inductive gui_outcome : Type :=
| GuiRejected (msg : string)
| GuiCallbackError (e : gui_error)
| GuiLogged (e : gui_error)
| GuiAdaptersInvoked (searcher : BiomedicalSearcher).

(** [ModernDarkGUI.validate_inputs]: an exception, or the message of the
    error box, or [None] for [True] *)
Definition validate_inputs_fields (self : ModernDarkGUI_fields)
  : gui_error + option string :=
  match f_keywords_list self with
  | [] => inr (Some "Add at least one keyword!")
  | _ :: _ =>
      let range_refused : gui_error + bool :=
        if (f_year_mode_var self =? "specific")%string then
          match f_start_year_var self with
          | None => inl TclError
          | Some start =>
              match f_end_year_var self with
              | None => inl TclError
              | Some end_ => inr (end_ <? start)%Z
              end
          end
        else inr false in
      match range_refused with
      | inl e => inl e
      | inr true => inr (Some "Start year must be <= end year!")
      | inr false =>
          if f_save_var self && (f_export_path self =? "")%string
          then inr (Some "Select an export folder!")
          else inr None
      end
  end.

(** [ModernDarkGUI.calculate_days] *)
Definition calculate_days_fields (self : ModernDarkGUI_fields)
  (current_year : Z) : gui_error + Z :=
  let mode := f_year_mode_var self in
  if (mode =? "days")%string then
    match f_days_var self with
    | None => inl TclError
    | Some days => inr days
    end
  else if (mode =? "years")%string then inr (f_years_back_var self * 365)%Z
  else if (mode =? "specific")%string then
    match f_start_year_var self with
    | None => inl TclError
    | Some start =>
        match f_end_year_var self with
        | None => inl TclError
        | Some end_ =>
            if (end_ <? start)%Z then inl (PyError ValueError)
            else inr ((current_year - start) * 365 + 30)%Z
        end
    end
  else inr 30%Z.

(** [ModernDarkGUI.perform_search] up to the call of [search_all]; its
    [except Exception] logs what is raised. *)
Definition perform_search_fields (self : ModernDarkGUI_fields)
  (current_year : Z) : gui_outcome :=
  match calculate_days_fields self current_year with
  | inl e => GuiLogged e
  | inr days => GuiAdaptersInvoked (__init__ (f_keywords_list self) days)
  end.

(** [ModernDarkGUI.start_search] *)
Definition start_search_fields (self : ModernDarkGUI_fields)
  (current_year : Z) : gui_outcome :=
  match validate_inputs_fields self with
  | inl e => GuiCallbackError e
  | inr (Some msg) => GuiRejected msg
  | inr None => perform_search_fields self current_year
  end.

(** The window whose fields hold the integers of [self] *)
Definition fields_of (self : ModernDarkGUI) : ModernDarkGUI_fields :=
  mk_ModernDarkGUI_fields (keywords_list self) (year_mode_var self)
    (Some (days_var self)) (years_back_var self)
    (Some (start_year_var self)) (Some (end_year_var self))
    (save_var self) (export_path self).

Definition gui_outcome_of (o : outcome) : gui_outcome :=
  match o with
  | Rejected msg => GuiRejected msg
  | Failed e => GuiLogged (PyError e)
  | AdaptersInvoked searcher => GuiAdaptersInvoked searcher
  end.

(** The window with one keyword and a text that is no number in the field
    of the days *)
Definition gui_days_text : ModernDarkGUI_fields :=
  mk_ModernDarkGUI_fields ["p53"] "days" None 1 (Some 2026%Z) (Some 2026%Z)
    false "".

(** Another record whose title is white space only, of another work *)
Definition blank_title_other : Article :=
  sample_article "   " "a cancer study of some length" "Europe PMC"
    (sample_date 2024 2 2).

(** * Properties *)

(** ** Strings *)

Lemma lower_char_idem (c : ascii) : lower_char (lower_char c) = lower_char c.
Proof.
  destruct c as [[] [] [] [] [] [] [] []]; reflexivity.
Qed.

Lemma lower_idem (s : string) : lower (lower s) = lower s.
Proof.
  induction s as [| c r IH]; simpl; [reflexivity|].
  now rewrite lower_char_idem, IH.
Qed.

Lemma prefix_iff (n h : string) :
  prefix n h = true <-> exists post, h = (n ++ post)%string.
Proof.
  revert h; induction n as [| c n IH]; intros h.
  - split; [intros _; now exists h|intros _; now destruct h].
  - destruct h as [| d h]; simpl.
    + split; [discriminate|intros [post H]; discriminate].
    + destruct (ascii_dec c d) as [->|Hne].
      * split.
        -- intros H. apply IH in H. destruct H as [post H].
           exists post. now rewrite H.
        -- intros [post H]. apply IH. exists post. now injection H.
      * split; [discriminate|].
        intros [post H]. injection H as H1 _. congruence.
Qed.

(** [contains] decides the substring relation. *)
Lemma contains_iff (n h : string) :
  contains n h = true <-> exists pre post, h = (pre ++ n ++ post)%string.
Proof.
  induction h as [| d h IH].
  - cbn [contains]. rewrite orb_false_r. split.
    + intros H. apply prefix_iff in H. destruct H as [post H].
      now exists ""%string, post.
    + intros [pre [post H]]. apply prefix_iff.
      destruct pre; [now exists post|discriminate].
  - cbn [contains]. rewrite orb_true_iff. split.
    + intros [H|H].
      * apply prefix_iff in H. destruct H as [post H].
        now exists ""%string, post.
      * apply IH in H. destruct H as [pre [post H]].
        exists (String d pre), post. simpl. now rewrite H.
    + intros [pre [post H]]. destruct pre as [| e pre].
      * left. apply prefix_iff. now exists post.
      * right. apply IH. exists pre, post. simpl in H. now injection H.
Qed.

(** ** Scoring *)

Lemma fold_left_append_filter {A : Type} (p : A -> bool) (l acc : list A) :
  fold_left (fun matched x => if p x then matched ++ [x] else matched) l acc
  = acc ++ filter p l.
Proof.
  revert acc; induction l as [| x l IH]; intros acc; simpl.
  - now rewrite app_nil_r.
  - rewrite IH. destruct (p x); [|reflexivity].
    now rewrite <- app_assoc.
Qed.

Lemma guarded_lower (v : pyval) (f : option pyval) :
  v = dict_get_default f "" ->
  (if truthy v then py_lower v else Ok "") = Ok (lower (text_of f)).
Proof.
  intros ->. destruct f as [[| s]|]; simpl; try reflexivity.
  destruct s; reflexivity.
Qed.

Lemma calculate_score_eq (self : BiomedicalSearcher) (article : Article) :
  calculate_score self article
  = Ok (List.length (matched_of self article), matched_of self article).
Proof.
  unfold calculate_score, get_abstract.
  rewrite (guarded_lower _ (title article) eq_refl).
  rewrite (guarded_lower _ (abstract article) eq_refl).
  simpl. now rewrite fold_left_append_filter.
Qed.

(** C10: [calculate_score] returns a pair for every article, and a missing
    or [None] title or abstract is read as the empty string: the result is
    the one for the article with these fields set to the empty string. *)
Theorem calculate_score_total (self : BiomedicalSearcher) (article : Article) :
  exists s matched,
    calculate_score self article = Ok (s, matched)
    /\ calculate_score self (with_text_fields article) = Ok (s, matched).
Proof.
  exists (List.length (matched_of self article)), (matched_of self article).
  split; [apply calculate_score_eq|].
  rewrite calculate_score_eq. unfold matched_of, with_text_fields. simpl.
  reflexivity.
Qed.

(** C3: with the keywords lower-cased by [__init__], the matched keywords
    are the keywords that occur case-insensitively in the title or in the
    abstract, in the order of the keyword list, and the score is their
    number. *)
Theorem calculate_score_spec (raw : list string) (days : Z) (article : Article) :
  let self := __init__ raw days in
  let matched := spec_matched_keywords (keywords self) article in
  calculate_score self article = Ok (List.length matched, matched).
Proof.
  intros self matched. rewrite calculate_score_eq.
  assert (E : matched_of self article = matched).
  { unfold matched_of, matched, spec_matched_keywords, self, __init__. simpl.
    apply filter_ext_in. intros kw Hin. apply in_map_iff in Hin.
    destruct Hin as [r [<- _]]. unfold ci_contains.
    now rewrite lower_idem. }
  now rewrite E.
Qed.

(** ** Loops *)

(** An invariant of a loop that may raise holds when the loop ends. *)
Lemma foldM_invariant {S A : Type} (step : S -> A -> result S)
  (P : list A -> S -> Prop) :
  (forall p s a s', P p s -> step s a = Ok s' -> P (p ++ [a]) s') ->
  forall l p s s',
    P p s -> foldM step l s = Ok s' -> P (p ++ l) s'.
Proof.
  intros Hstep l; induction l as [| a l IH]; intros p s s' HP Hrun.
  - simpl in Hrun. injection Hrun as <-. now rewrite app_nil_r.
  - simpl in Hrun. destruct (step s a) as [s1|e] eqn:E; [|discriminate].
    simpl in Hrun. replace (p ++ a :: l) with ((p ++ [a]) ++ l).
    + eapply IH; [|exact Hrun]. eapply Hstep; eassumption.
    + now rewrite <- app_assoc.
Qed.

(** ** Dictionaries *)

Section OrderedDictFacts.
Context {K V : Type} (eqb : K -> K -> bool).
Hypothesis eqb_eq : forall x y, eqb x y = true <-> x = y.

Lemma eqb_refl' (x : K) : eqb x x = true.
Proof. now apply eqb_eq. Qed.

Lemma eqb_neq (x y : K) : x <> y -> eqb x y = false.
Proof.
  intros H. destruct (eqb x y) eqn:E; [|reflexivity].
  apply eqb_eq in E. contradiction.
Qed.

Lemma od_get_In (d : odict K V) (k : K) (v : V) :
  od_get eqb d k = Some v -> In (k, v) d.
Proof.
  induction d as [| [k' v'] d IH]; simpl; [discriminate|].
  destruct (eqb k' k) eqn:E.
  - intros H. injection H as ->. apply eqb_eq in E. subst. now left.
  - intros H. right. now apply IH.
Qed.

Lemma od_get_None (d : odict K V) (k : K) :
  od_get eqb d k = None <-> ~ In k (od_keys d).
Proof.
  induction d as [| [k' v'] d IH]; simpl.
  - split; [intros _ []|reflexivity].
  - destruct (eqb k' k) eqn:E.
    + apply eqb_eq in E. split; [discriminate|]. intros H. exfalso.
      apply H. now left.
    + split.
      * intros H [H1|H1]; [subst; rewrite eqb_refl' in E; discriminate|].
        now apply IH in H.
      * intros H. apply IH. intros H1. apply H. now right.
Qed.

Lemma In_od_get (d : odict K V) (k : K) (v : V) :
  NoDup (od_keys d) -> In (k, v) d -> od_get eqb d k = Some v.
Proof.
  induction d as [| [k' v'] d IH]; simpl; [intros _ []|].
  intros Hnd [H|H].
  - injection H as -> ->. now rewrite eqb_refl'.
  - inversion Hnd as [| ? ? Hnotin Hnd']; subst.
    destruct (eqb k' k) eqn:E.
    + apply eqb_eq in E. subst. exfalso. apply Hnotin.
      change k with (fst (k, v)). now apply in_map.
    + now apply IH.
Qed.

Lemma od_set_new (d : odict K V) (k : K) (v : V) :
  od_get eqb d k = None -> od_set eqb d k v = d ++ [(k, v)].
Proof.
  induction d as [| [k' v'] d IH]; simpl; [reflexivity|].
  destruct (eqb k' k); [discriminate|].
  intros H. now rewrite IH.
Qed.

Lemma od_set_keys (d : odict K V) (k : K) (v v0 : V) :
  od_get eqb d k = Some v0 -> od_keys (od_set eqb d k v) = od_keys d.
Proof.
  induction d as [| [k' v'] d IH]; simpl; [discriminate|].
  destruct (eqb k' k) eqn:E; simpl; [reflexivity|].
  intros H. now rewrite IH.
Qed.

Lemma od_get_set (d : odict K V) (k k' : K) (v : V) :
  od_get eqb (od_set eqb d k v) k'
  = if eqb k k' then Some v else od_get eqb d k'.
Proof.
  induction d as [| [k0 v0] d IH]; simpl; [reflexivity|].
  destruct (eqb k0 k) eqn:E; simpl.
  - apply eqb_eq in E. subst. now destruct (eqb k k').
  - destruct (eqb k0 k') eqn:E'; [|exact IH].
    apply eqb_eq in E'. subst. destruct (eqb k k') eqn:E2; [|reflexivity].
    apply eqb_eq in E2. subst. rewrite eqb_refl' in E. discriminate.
Qed.

Lemma od_set_NoDup (d : odict K V) (k : K) (v : V) :
  NoDup (od_keys d) -> NoDup (od_keys (od_set eqb d k v)).
Proof.
  intros Hnd. destruct (od_get eqb d k) as [v0|] eqn:E.
  - now rewrite (od_set_keys _ _ _ _ E).
  - rewrite (od_set_new _ _ _ E). unfold od_keys. rewrite map_app. simpl.
    apply od_get_None in E.
    apply NoDup_app; [exact Hnd|repeat constructor; intros []|].
    intros x Hx [<-|[]]. contradiction.
Qed.

Lemma In_od_set (d : odict K V) (k k' : K) (v v' : V) :
  NoDup (od_keys d) ->
  In (k', v') (od_set eqb d k v) ->
  (k' = k /\ v' = v) \/ (k' <> k /\ In (k', v') d).
Proof.
  intros Hnd Hin.
  apply In_od_get in Hin; [|now apply od_set_NoDup].
  rewrite od_get_set in Hin. destruct (eqb k k') eqn:E.
  - apply eqb_eq in E. injection Hin as <-. now left.
  - right. split; [|now apply od_get_In].
    intros ->. rewrite eqb_refl' in E. discriminate.
Qed.
End OrderedDictFacts.

(** ** Deduplication *)

Lemma search_all_step_skip (unique : odict string Article) (art : Article) :
  dedup_key art = None -> search_all_step unique art = Ok unique.
Proof.
  unfold dedup_key, search_all_step.
  destruct (title art) as [[| s]|]; simpl; try reflexivity.
  destruct (s =? "")%string; simpl; [reflexivity|].
  destruct (s =? "N/A")%string; simpl; [reflexivity|discriminate].
Qed.

Lemma search_all_step_keep (unique : odict string Article) (art : Article)
  (k : string) :
  dedup_key art = Some k ->
  search_all_step unique art
  = match od_get String.eqb unique k with
    | None => Ok (od_set String.eqb unique k art)
    | Some stored =>
        n <- py_len (get_abstract art) ;;
        m <- py_len (get_abstract stored) ;;
        if (m <? n)%nat then Ok (od_set String.eqb unique k art)
        else Ok unique
    end.
Proof.
  unfold dedup_key, search_all_step.
  destruct (title art) as [[| s]|]; simpl; try discriminate.
  destruct (s =? "")%string; simpl; [discriminate|].
  destruct (s =? "N/A")%string; simpl; [discriminate|].
  now intros [= <-].
Qed.

Lemma dedup_key_has_title (art : Article) (k : string) :
  dedup_key art = Some k -> has_title art.
Proof.
  unfold dedup_key, has_title.
  destruct (title art) as [[| s]|]; try discriminate.
  destruct (s =? "")%string eqn:E1; [discriminate|].
  destruct (s =? "N/A")%string eqn:E2; [discriminate|].
  intros _. exists s. repeat split.
  - intros ->. discriminate.
  - intros ->. discriminate.
Qed.

Lemma survivor_snoc (p : list Article) (k : string) (a x : Article) :
  survivor_of p k a ->
  (dedup_key x = Some k -> abstract_le x a) ->
  survivor_of (p ++ [x]) k a.
Proof.
  intros [p1 [p2 [-> [H1 H2]]]] Hx.
  exists p1, (p2 ++ [x]). split; [now rewrite <- app_assoc|].
  split; [exact H1|].
  intros b Hb Hk. apply in_app_or in Hb. destruct Hb as [Hb|[<-|[]]].
  - now apply H2.
  - now apply Hx.
Qed.

Lemma survivor_new (p : list Article) (k : string) (x : Article) :
  (forall b, In b p -> dedup_key b = Some k -> abstract_lt b x) ->
  survivor_of (p ++ [x]) k x.
Proof.
  intros H. exists p, []. split; [reflexivity|].
  split; [exact H|intros b []].
Qed.

Lemma survivor_replaced (p : list Article) (k : string) (stored x : Article)
  (n m : nat) :
  survivor_of p k stored ->
  py_len (get_abstract x) = Ok n ->
  py_len (get_abstract stored) = Ok m ->
  m < n ->
  forall b, In b p -> dedup_key b = Some k -> abstract_lt b x.
Proof.
  intros [p1 [p2 [-> [H1 H2]]]] Hn Hm Hlt b Hb Hk.
  apply in_app_or in Hb. destruct Hb as [Hb|[<-|Hb]].
  - destruct (H1 b Hb Hk) as [nb [m' [Eb [Em Hlt']]]].
    rewrite Hm in Em. injection Em as <-.
    exists nb, n. repeat split; [assumption..|lia].
  - exists m, n. now repeat split.
  - destruct (H2 b Hb Hk) as [nb [m' [Eb [Em Hle]]]].
    rewrite Hm in Em. injection Em as <-.
    exists nb, n. repeat split; [assumption..|lia].
Qed.

Lemma dedup_inv_step (p : list Article) (unique unique' : odict string Article)
  (art : Article) :
  dedup_inv p unique ->
  search_all_step unique art = Ok unique' ->
  dedup_inv (p ++ [art]) unique'.
Proof.
  intros [Hnd [Hsurv Hseen]] Hstep.
  destruct (dedup_key art) as [k|] eqn:Hk.
  - rewrite (search_all_step_keep _ _ _ Hk) in Hstep.
    assert (Hother : forall k' a, k' <> k -> In (k', a) unique ->
              dedup_key a = Some k' /\ survivor_of (p ++ [art]) k' a).
    { intros k' a Hne Hin. destruct (Hsurv _ _ Hin) as [Hka Hs].
      split; [exact Hka|]. apply survivor_snoc; [exact Hs|].
      intros Hk'. congruence. }
    assert (Hseen' : forall b kb, In b (p ++ [art]) -> dedup_key b = Some kb ->
              od_get String.eqb (od_set String.eqb unique k art) kb <> None).
    { intros b kb Hb Hkb. rewrite (od_get_set _ String.eqb_eq).
      destruct (k =? kb)%string eqn:E; [discriminate|].
      apply in_app_or in Hb. destruct Hb as [Hb|[<-|[]]].
      - now apply (Hseen b).
      - rewrite Hk in Hkb. injection Hkb as <-.
        rewrite String.eqb_refl in E. discriminate. }
    destruct (od_get String.eqb unique k) as [stored|] eqn:Hget.
    + destruct (py_len (get_abstract art)) as [n|] eqn:Hn; [|discriminate].
      destruct (py_len (get_abstract stored)) as [m|] eqn:Hm; [|discriminate].
      simpl in Hstep.
      assert (Hst : survivor_of p k stored).
      { apply (od_get_In _ String.eqb_eq) in Hget. now apply Hsurv. }
      destruct (m <? n)%nat eqn:Hlt; injection Hstep as <-.
      * apply Nat.ltb_lt in Hlt.
        split; [now apply (od_set_NoDup _ String.eqb_eq)|].
        split; [|exact Hseen'].
        intros k' a Hin.
        apply (In_od_set _ String.eqb_eq) in Hin; [|exact Hnd].
        destruct Hin as [[-> ->]|[Hne Hin]]; [|now apply Hother].
        split; [exact Hk|]. apply survivor_new.
        now apply (survivor_replaced p k stored art n m).
      * apply Nat.ltb_ge in Hlt.
        split; [exact Hnd|]. split.
        -- intros k' a Hin. destruct (String.string_dec k' k) as [->|Hne];
             [|now apply Hother].
           destruct (Hsurv _ _ Hin) as [Hka Hs]. split; [exact Hka|].
           apply survivor_snoc; [exact Hs|]. intros _.
           apply (In_od_get _ String.eqb_eq) in Hin; [|exact Hnd].
           rewrite Hget in Hin. injection Hin as <-.
           exists n, m. now repeat split.
        -- intros b kb Hb Hkb. apply in_app_or in Hb.
           destruct Hb as [Hb|[<-|[]]]; [now apply (Hseen b)|].
           rewrite Hk in Hkb. injection Hkb as <-. now rewrite Hget.
    + injection Hstep as <-.
      split; [now apply (od_set_NoDup _ String.eqb_eq)|].
      split; [|exact Hseen'].
      intros k' a Hin.
      apply (In_od_set _ String.eqb_eq) in Hin; [|exact Hnd].
      destruct Hin as [[-> ->]|[Hne Hin]]; [|now apply Hother].
      split; [exact Hk|]. apply survivor_new.
      intros b Hb Hkb. exfalso. now apply (Hseen b k).
  - rewrite (search_all_step_skip _ _ Hk) in Hstep. injection Hstep as <-.
    split; [exact Hnd|]. split.
    + intros k a Hin. destruct (Hsurv _ _ Hin) as [Hka Hs].
      split; [exact Hka|]. apply survivor_snoc; [exact Hs|]. congruence.
    + intros b kb Hb Hkb. apply in_app_or in Hb.
      destruct Hb as [Hb|[<-|[]]]; [now apply (Hseen b)|congruence].
Qed.

Lemma dedup_inv_nil : dedup_inv [] [].
Proof.
  split; [constructor|]. split; [intros k a []|intros b k []].
Qed.

Lemma deduplicate_inv (all_articles out : list Article) :
  deduplicate all_articles = Ok out ->
  exists unique, out = od_values unique /\ dedup_inv all_articles unique.
Proof.
  unfold deduplicate. intros H.
  destruct (foldM search_all_step all_articles []) as [unique|e] eqn:E;
    [|discriminate].
  simpl in H. injection H as <-. exists unique. split; [reflexivity|].
  apply (foldM_invariant search_all_step dedup_inv
           (fun p s a s' => dedup_inv_step p s s' a)
           all_articles [] [] unique dedup_inv_nil E).
Qed.

Lemma dedup_keys_of_values (unique : odict string Article) :
  (forall k a, In (k, a) unique -> dedup_key a = Some k) ->
  map dedup_key (od_values unique) = map Some (od_keys unique).
Proof.
  induction unique as [| [k a] u IH]; intros H; simpl; [reflexivity|].
  rewrite (H k a (or_introl eq_refl)). f_equal.
  apply IH. intros k' a' Hin. apply H. now right.
Qed.

(** C1, as the code has it: when deduplication returns, the output holds
    exactly one article for each key of the input, and that article is the
    survivor of its group: the first of the articles with the longest
    abstract.  On a tie the article met first is kept. *)
Theorem deduplicate_survivor (all_articles out : list Article) :
  deduplicate all_articles = Ok out ->
  NoDup (map dedup_key out)
  /\ (forall b k, In b all_articles -> dedup_key b = Some k ->
                  exists a, In a out /\ dedup_key a = Some k)
  /\ (forall a, In a out ->
                exists k, dedup_key a = Some k /\ survivor_of all_articles k a).
Proof.
  intros H. apply deduplicate_inv in H.
  destruct H as [unique [-> [Hnd [Hsurv Hseen]]]].
  split; [|split].
  - rewrite dedup_keys_of_values; [|intros k a Hin; now apply Hsurv].
    apply Finite.Injective_map_NoDup; [|exact Hnd].
    intros x y E. now injection E.
  - intros b k Hb Hk. specialize (Hseen b k Hb Hk).
    destruct (od_get String.eqb unique k) as [a|] eqn:E; [|contradiction].
    apply (od_get_In _ String.eqb_eq) in E. exists a. split.
    + change a with (snd (k, a)). now apply in_map.
    + now apply Hsurv.
  - intros a Ha. apply in_map_iff in Ha. destruct Ha as [[k a'] [E Hin]].
    simpl in E. subst a'. exists k. now apply Hsurv.
Qed.

Lemma deduplicate_survivor_witness :
  NoDup (map dedup_key [tie_first])
  /\ (forall b k, In b [tie_first; tie_last] -> dedup_key b = Some k ->
                  exists a, In a [tie_first] /\ dedup_key a = Some k)
  /\ (forall a, In a [tie_first] ->
                exists k, dedup_key a = Some k
                          /\ survivor_of [tie_first; tie_last] k a).
Proof.
  exact (deduplicate_survivor [tie_first; tie_last] [tie_first] eq_refl).
Defined.

(** C1 as stated fails: two articles under one key with abstracts of the
    same length, and the one met first is kept, not the one met last. *)
Lemma deduplicate_tie_keeps_first :
  dedup_key tie_first = dedup_key tie_last
  /\ py_len (get_abstract tie_first) = py_len (get_abstract tie_last)
  /\ tie_first <> tie_last
  /\ deduplicate [tie_first; tie_last] = Ok [tie_first].
Proof.
  repeat split. discriminate.
Qed.

(** The specification's tie-break example: one article is left, the one
    with the abstract of 50 characters. *)
Example deduplicate_study_x :
  deduplicate [study_x_short; study_x_long] = Ok [study_x_long].
Proof. reflexivity. Qed.

Lemma foldM_fresh_keys (d2 d1 : odict string Article) :
  NoDup (od_keys (d1 ++ d2)) ->
  (forall k a, In (k, a) d2 -> dedup_key a = Some k) ->
  foldM search_all_step (od_values d2) d1 = Ok (d1 ++ d2).
Proof.
  revert d1; induction d2 as [| [k a] d2 IH]; intros d1 Hnd Hkeys; simpl.
  - now rewrite app_nil_r.
  - rewrite (search_all_step_keep d1 a k (Hkeys k a (or_introl eq_refl))).
    assert (Hnone : od_get String.eqb d1 k = None).
    { apply (od_get_None _ String.eqb_eq). unfold od_keys in Hnd.
      rewrite map_app in Hnd. simpl in Hnd.
      apply NoDup_remove_2 in Hnd. intros Hin. apply Hnd.
      apply in_or_app. now left. }
    rewrite Hnone. simpl. rewrite (od_set_new String.eqb _ _ _ Hnone).
    rewrite IH.
    + now rewrite <- app_assoc.
    + now rewrite <- app_assoc.
    + intros k' a' Hin. apply Hkeys. now right.
Qed.

(** C7: deduplicating the output of a deduplication returns that output
    again, the same articles in the same order. *)
Theorem deduplicate_idempotent (all_articles out : list Article) :
  deduplicate all_articles = Ok out -> deduplicate out = Ok out.
Proof.
  intros H. apply deduplicate_inv in H.
  destruct H as [unique [-> [Hnd [Hsurv _]]]].
  unfold deduplicate. rewrite (foldM_fresh_keys unique []).
  - reflexivity.
  - exact Hnd.
  - intros k a Hin. now apply Hsurv.
Qed.

Lemma deduplicate_idempotent_witness :
  deduplicate [study_x_long] = Ok [study_x_long].
Proof.
  exact (deduplicate_idempotent [study_x_short; study_x_long] [study_x_long]
           eq_refl).
Defined.

(** Deduplication returns on every input whose abstracts are text or
    missing. *)
Lemma deduplicate_returns (all_articles : list Article) :
  (forall a, In a all_articles -> abstract a <> Some PyNone) ->
  exists out, deduplicate all_articles = Ok out.
Proof.
  intros Htext. unfold deduplicate.
  cut (forall l unique,
          (forall a, In a l -> abstract a <> Some PyNone) ->
          (forall k a, In (k, a) unique -> abstract a <> Some PyNone) ->
          exists u', foldM search_all_step l unique = Ok u').
  { intros C. destruct (C all_articles [] Htext) as [u' E]; [intros k a []|].
    rewrite E. simpl. now eexists. }
  clear. intros l; induction l as [| x l IH]; intros unique Hl Hu; simpl.
  - now eexists.
  - assert (Hlen : forall a, abstract a <> Some PyNone ->
                             exists n, py_len (get_abstract a) = Ok n).
    { intros a Ha. unfold get_abstract.
      destruct (abstract a) as [[| s]|]; simpl; [contradiction|eauto..]. }
    assert (Hx : abstract x <> Some PyNone) by (apply Hl; now left).
    assert (Hset : forall k, forall k' a, In (k', a) (od_set String.eqb unique k x) ->
                     abstract a <> Some PyNone).
    { intros k k' a Hin. clear IH. induction unique as [| [k0 a0] u IHu];
        simpl in Hin.
      - destruct Hin as [[= _ <-]|[]]. exact Hx.
      - destruct (k0 =? k)%string.
        + destruct Hin as [[= _ <-]|Hin]; [exact Hx|].
          apply (Hu k' a). now right.
        + destruct Hin as [[= <- <-]|Hin]; [apply (Hu k0 a0); now left|].
          apply IHu; [|exact Hin]. intros k1 a1 H1. apply (Hu k1 a1).
          now right. }
    assert (Hl' : forall a, In a l -> abstract a <> Some PyNone).
    { intros a Ha. apply Hl. now right. }
    destruct (dedup_key x) as [k|] eqn:Hk.
    + rewrite (search_all_step_keep _ _ _ Hk).
      destruct (od_get String.eqb unique k) as [stored|] eqn:Hget.
      * destruct (Hlen x Hx) as [n ->].
        apply (od_get_In _ String.eqb_eq) in Hget.
        destruct (Hlen stored (Hu _ _ Hget)) as [m ->]. simpl.
        destruct (m <? n)%nat; simpl; apply IH;
          solve [exact Hl'|exact Hu|exact (Hset k)].
      * simpl. apply IH; [exact Hl'|exact (Hset k)].
    + rewrite (search_all_step_skip _ _ Hk). simpl.
      apply IH; [exact Hl'|exact Hu].
Qed.

(** ** Dates *)

Lemma lex_compare_eq (a b : list Z) : lex_compare a b = Eq -> a = b.
Proof.
  revert b; induction a as [| x a IH]; intros [| y b]; simpl;
    try discriminate; [reflexivity|].
  destruct (Z.compare_spec x y) as [->| |]; try discriminate.
  intros H. now rewrite (IH b H).
Qed.

Lemma lex_compare_refl (a : list Z) : lex_compare a a = Eq.
Proof.
  induction a as [| x a IH]; simpl; [reflexivity|].
  now rewrite Z.compare_refl.
Qed.

Lemma lex_compare_antisym (a b : list Z) :
  lex_compare b a = CompOpp (lex_compare a b).
Proof.
  revert b; induction a as [| x a IH]; intros [| y b]; simpl;
    try reflexivity.
  rewrite (Z.compare_antisym x y).
  destruct (x ?= y)%Z; simpl; [apply IH|reflexivity..].
Qed.

Lemma lex_le_trans (a b c : list Z) :
  lex_compare a b <> Gt -> lex_compare b c <> Gt -> lex_compare a c <> Gt.
Proof.
  revert b c; induction a as [| x a IH]; intros [| y b] [| z c]; simpl;
    try congruence.
  destruct (Z.compare_spec x y) as [->|Hxy|Hxy]; try congruence.
  - destruct (Z.compare_spec y z); try congruence. apply IH.
  - intros _. destruct (Z.compare_spec y z) as [->|Hyz|Hyz]; try congruence.
    + intros _. destruct (Z.compare_spec x z); [lia|congruence|lia].
    + intros _. destruct (Z.compare_spec x z); [lia|congruence|lia].
Qed.

Lemma dt_tuple_inj (a b : datetime) : dt_tuple a = dt_tuple b -> a = b.
Proof.
  destruct a, b. unfold dt_tuple. simpl. intros H. now injection H as -> -> -> -> -> -> ->.
Qed.

Lemma dt_eqb_eq (a b : datetime) : dt_eqb a b = true <-> a = b.
Proof.
  unfold dt_eqb, dt_compare. split.
  - destruct (lex_compare (dt_tuple a) (dt_tuple b)) eqn:E; try discriminate.
    intros _. now apply dt_tuple_inj, lex_compare_eq.
  - intros ->. now rewrite lex_compare_refl.
Qed.

Lemma dt_ltb_irrefl (a : datetime) : dt_ltb a a = false.
Proof.
  unfold dt_ltb, dt_compare. now rewrite lex_compare_refl.
Qed.

Lemma dt_ltb_asym (a b : datetime) : dt_ltb a b = true -> dt_ltb b a = false.
Proof.
  unfold dt_ltb, dt_compare. rewrite (lex_compare_antisym (dt_tuple a)).
  now destruct (lex_compare (dt_tuple a) (dt_tuple b)).
Qed.

Lemma dt_ge_trans (a b c : datetime) :
  dt_ltb a b = false -> dt_ltb b c = false -> dt_ltb a c = false.
Proof.
  unfold dt_ltb, dt_compare. intros Hab Hbc.
  assert (H := lex_le_trans (dt_tuple c) (dt_tuple b) (dt_tuple a)).
  rewrite (lex_compare_antisym (dt_tuple b) (dt_tuple c)) in H.
  rewrite (lex_compare_antisym (dt_tuple a) (dt_tuple b)) in H.
  rewrite (lex_compare_antisym (dt_tuple a) (dt_tuple c)) in H.
  destruct (lex_compare (dt_tuple a) (dt_tuple b));
    destruct (lex_compare (dt_tuple b) (dt_tuple c));
    destruct (lex_compare (dt_tuple a) (dt_tuple c));
    simpl in H; try reflexivity; try discriminate;
    exfalso; apply H; congruence.
Qed.

(** ** The sort of a score group *)

Lemma insert_published_In (x a : Article) (l : list Article) :
  In a (insert_published x l) <-> a = x \/ In a l.
Proof.
  induction l as [| y l IH]; simpl.
  - split; [intros [<-|[]]; now left|intros [->|[]]; now left].
  - destruct (dt_ltb (published x) (published y)); simpl.
    + split.
      * intros [<-|H]; [right; now left|].
        apply IH in H. destruct H as [->|H]; [now left|right; now right].
      * intros [->|[<-|H]]; [right; apply IH; now left|now left|].
        right. apply IH. now right.
    + split; [intros [<-|H]; [now left|now right]|].
      intros [->|H]; [now left|now right].
Qed.

Lemma insert_published_perm (x : Article) (l : list Article) :
  Permutation (x :: l) (insert_published x l).
Proof.
  induction l as [| y l IH]; simpl; [reflexivity|].
  destruct (dt_ltb (published x) (published y)); [|reflexivity].
  rewrite perm_swap. now apply perm_skip.
Qed.

Lemma sort_published_reverse_perm (l : list Article) :
  Permutation l (sort_published_reverse l).
Proof.
  induction l as [| x l IH]; simpl; [reflexivity|].
  rewrite <- insert_published_perm. now apply perm_skip.
Qed.

Lemma insert_published_sorted (x : Article) (l : list Article) :
  StronglySorted not_older l -> StronglySorted not_older (insert_published x l).
Proof.
  induction l as [| y l IH]; simpl; intros Hs.
  - repeat constructor.
  - inversion Hs as [| ? ? Hs' Hall]; subst.
    destruct (dt_ltb (published x) (published y)) eqn:E.
    + constructor; [now apply IH|].
      apply Forall_forall. intros a Ha. apply insert_published_In in Ha.
      destruct Ha as [->|Ha].
      * unfold not_older. now apply dt_ltb_asym.
      * rewrite Forall_forall in Hall. now apply Hall.
    + constructor; [exact Hs|]. constructor; [exact E|].
      apply Forall_forall. intros a Ha. rewrite Forall_forall in Hall.
      unfold not_older. apply (dt_ge_trans _ (published y)); [exact E|].
      now apply Hall.
Qed.

Lemma sort_published_reverse_sorted (l : list Article) :
  StronglySorted not_older (sort_published_reverse l).
Proof.
  induction l as [| x l IH]; simpl; [constructor|].
  now apply insert_published_sorted.
Qed.

Lemma insert_published_stable (d : datetime) (x : Article) (l : list Article) :
  filter (published_on d) (insert_published x l)
  = filter (published_on d) (x :: l).
Proof.
  induction l as [| y l IH]; [reflexivity|].
  cbn [insert_published].
  destruct (dt_ltb (published x) (published y)) eqn:E; [|reflexivity].
  cbn [filter] in *. rewrite IH.
  destruct (published_on d x) eqn:Ex; destruct (published_on d y) eqn:Ey;
    try reflexivity.
  unfold published_on in Ex, Ey. apply dt_eqb_eq in Ex, Ey.
  rewrite Ex, Ey, dt_ltb_irrefl in E. discriminate.
Qed.

Lemma sort_published_reverse_stable (d : datetime) (l : list Article) :
  filter (published_on d) (sort_published_reverse l)
  = filter (published_on d) l.
Proof.
  induction l as [| x l IH]; [reflexivity|].
  cbn [sort_published_reverse fold_right].
  fold (sort_published_reverse l).
  rewrite insert_published_stable. cbn [filter]. now rewrite IH.
Qed.

Lemma dt_ltb_antisym (a b : datetime) :
  dt_ltb a b = false -> dt_ltb b a = false -> a = b.
Proof.
  unfold dt_ltb, dt_compare. rewrite (lex_compare_antisym (dt_tuple a)).
  destruct (lex_compare (dt_tuple a) (dt_tuple b)) eqn:E; simpl;
    try discriminate.
  intros _ _. now apply dt_tuple_inj, lex_compare_eq.
Qed.

Lemma published_on_refl (a : Article) : published_on (published a) a = true.
Proof. unfold published_on. now apply dt_eqb_eq. Qed.

Lemma filter_nonempty_In {A : Type} (f : A -> bool) (l : list A) (x : A)
  (r : list A) :
  filter f l = x :: r -> In x l /\ f x = true.
Proof.
  intros H. apply filter_In. rewrite H. now left.
Qed.

Lemma filter_head_on (x : Article) (l : list Article) :
  filter (published_on (published x)) (x :: l)
  = x :: filter (published_on (published x)) l.
Proof. cbn [filter]. now rewrite published_on_refl. Qed.

Lemma sorted_head_not_older (x z : Article) (l : list Article) :
  StronglySorted not_older (x :: l) -> In z (x :: l) -> not_older x z.
Proof.
  intros Hs [<-|Hz].
  - apply dt_ltb_irrefl.
  - inversion Hs as [| ? ? _ Hall]; subst.
    rewrite Forall_forall in Hall. now apply Hall.
Qed.

(** A list sorted from the latest date on is determined by the order it
    gives to the articles of each date: the stable sort is unique. *)
Lemma stable_sort_unique (l1 l2 : list Article) :
  StronglySorted not_older l1 ->
  StronglySorted not_older l2 ->
  (forall d, filter (published_on d) l1 = filter (published_on d) l2) ->
  l1 = l2.
Proof.
  revert l2; induction l1 as [| x l1 IH]; intros [| y l2] Hs1 Hs2 Hf.
  - reflexivity.
  - specialize (Hf (published y)). cbn [filter] in Hf.
    rewrite published_on_refl in Hf. discriminate.
  - specialize (Hf (published x)). cbn [filter] in Hf.
    rewrite published_on_refl in Hf. discriminate.
  - assert (Hxy : published x = published y).
    { apply dt_ltb_antisym.
      - assert (H := Hf (published y)).
        rewrite (filter_head_on y l2) in H.
        apply filter_nonempty_In in H. destruct H as [Hin _].
        exact (sorted_head_not_older x y l1 Hs1 Hin).
      - assert (H := Hf (published x)).
        rewrite (filter_head_on x l1) in H. symmetry in H.
        apply filter_nonempty_In in H. destruct H as [Hin _].
        exact (sorted_head_not_older y x l2 Hs2 Hin). }
    assert (H := Hf (published x)). cbn [filter] in H.
    rewrite (published_on_refl x) in H. rewrite Hxy in H at 2.
    rewrite (published_on_refl y) in H. injection H as -> H.
    f_equal. apply IH.
    + now inversion Hs1.
    + now inversion Hs2.
    + intros d. specialize (Hf d). cbn [filter] in Hf.
      destruct (published_on d y); [now injection Hf|exact Hf].
Qed.

(** ** Ranking *)

Lemma foldM_total_invariant {S A : Type} (step : S -> A -> result S)
  (P : list A -> S -> Prop) :
  (forall p s a, P p s -> exists s', step s a = Ok s' /\ P (p ++ [a]) s') ->
  forall l p s, P p s -> exists s', foldM step l s = Ok s' /\ P (p ++ l) s'.
Proof.
  intros Hstep l; induction l as [| a l IH]; intros p s HP.
  - exists s. simpl. now rewrite app_nil_r.
  - destruct (Hstep p s a HP) as [s1 [E HP1]].
    destruct (IH _ _ HP1) as [s' [E' HP']].
    exists s'. simpl. rewrite E. simpl. split; [exact E'|].
    now rewrite <- app_assoc in HP'.
Qed.

Lemma positive_eq (self : BiomedicalSearcher) (a : Article) :
  positive self a = (0 <? List.length (matched_of self a))%nat.
Proof. unfold positive. now rewrite calculate_score_eq. Qed.

Lemma scored_article_eq (self : BiomedicalSearcher) (a : Article) :
  scored_article self a
  = set_score a (List.length (matched_of self a)) (matched_of self a).
Proof. unfold scored_article. now rewrite calculate_score_eq. Qed.

Lemma rank_articles_step_eq (self : BiomedicalSearcher)
  (ranked : odict nat (list Article)) (a : Article) :
  rank_articles_step self ranked a
  = Ok (if positive self a
        then dd_append ranked (List.length (matched_of self a))
               (scored_article self a)
        else ranked).
Proof.
  unfold rank_articles_step.
  rewrite positive_eq, scored_article_eq, calculate_score_eq. simpl.
  now destruct (0 <? List.length (matched_of self a))%nat.
Qed.

Lemma scored_snoc (self : BiomedicalSearcher) (p : list Article) (a : Article) :
  scored self (p ++ [a])
  = scored self p ++ (if positive self a then [scored_article self a] else []).
Proof.
  unfold scored. rewrite filter_app, map_app. simpl.
  now destruct (positive self a).
Qed.

Lemma group_of_snoc (self : BiomedicalSearcher) (k : nat) (p : list Article)
  (a : Article) :
  group_of self k (p ++ [a])
  = group_of self k p
    ++ (if positive self a && (List.length (matched_of self a) =? k)%nat
        then [scored_article self a] else []).
Proof.
  unfold group_of. rewrite scored_snoc, filter_app. f_equal.
  destruct (positive self a); simpl; [|reflexivity].
  rewrite scored_article_eq at 1. unfold has_score. simpl.
  now destruct (List.length (matched_of self a) =? k)%nat.
Qed.

Lemma nonempty_opt_snoc {A : Type} (l : list A) (x : A) :
  nonempty_opt (l ++ [x]) = Some (l ++ [x]).
Proof. now destruct l. Qed.

Lemma nonempty_opt_Some {A : Type} (l g : list A) :
  nonempty_opt l = Some g -> g = l /\ l <> [].
Proof.
  destruct l; simpl; [discriminate|]. intros [= <-]. split; [reflexivity|].
  discriminate.
Qed.

Lemma total_size_set (d : odict nat (list Article)) (k : nat)
  (g v : list Article) :
  od_get Nat.eqb d k = Some g ->
  total_size (od_set Nat.eqb d k v) + List.length g
  = total_size d + List.length v.
Proof.
  unfold total_size, od_values.
  induction d as [| [k' g'] d IH]; simpl; [discriminate|].
  destruct (k' =? k)%nat; simpl.
  - intros [= ->]. lia.
  - intros H. specialize (IH H). lia.
Qed.

Lemma total_size_app (d1 d2 : odict nat (list Article)) :
  total_size (d1 ++ d2) = total_size d1 + total_size d2.
Proof.
  unfold total_size, od_values. now rewrite !map_app, list_sum_app.
Qed.

Lemma dd_append_get (ranked : odict nat (list Article)) (s k : nat)
  (a : Article) (g : list Article) :
  od_get Nat.eqb ranked s = nonempty_opt g ->
  od_get Nat.eqb (dd_append ranked s a) k
  = if (s =? k)%nat then Some (g ++ [a]) else od_get Nat.eqb ranked k.
Proof.
  intros H. unfold dd_append. rewrite H.
  destruct g as [| x g]; simpl; now rewrite (od_get_set _ Nat.eqb_eq).
Qed.

Lemma dd_append_size (ranked : odict nat (list Article)) (s : nat)
  (a : Article) :
  total_size (dd_append ranked s a) = total_size ranked + 1.
Proof.
  unfold dd_append. destruct (od_get Nat.eqb ranked s) as [g|] eqn:E.
  - assert (H := total_size_set ranked s g (g ++ [a]) E).
    rewrite length_app in H. simpl in H. lia.
  - rewrite (od_set_new Nat.eqb _ _ _ E), total_size_app.
    unfold total_size. simpl. lia.
Qed.

Lemma dd_append_NoDup (ranked : odict nat (list Article)) (s : nat)
  (a : Article) :
  NoDup (od_keys ranked) -> NoDup (od_keys (dd_append ranked s a)).
Proof.
  intros H. unfold dd_append.
  destruct (od_get Nat.eqb ranked s); now apply (od_set_NoDup _ Nat.eqb_eq).
Qed.

Lemma rank_inv_step (self : BiomedicalSearcher) (p : list Article)
  (ranked : odict nat (list Article)) (a : Article) :
  rank_inv self p ranked ->
  exists ranked',
    rank_articles_step self ranked a = Ok ranked'
    /\ rank_inv self (p ++ [a]) ranked'.
Proof.
  intros [Hnd [Hget Hsize]]. rewrite rank_articles_step_eq.
  eexists. split; [reflexivity|].
  destruct (positive self a) eqn:Hpos.
  - split; [now apply dd_append_NoDup|]. split.
    + intros k. rewrite (dd_append_get _ _ _ _ _ (Hget _)).
      rewrite group_of_snoc, Hpos. simpl.
      destruct (List.length (matched_of self a) =? k)%nat eqn:E.
      * apply Nat.eqb_eq in E. subst k. now rewrite nonempty_opt_snoc.
      * now rewrite app_nil_r.
    + rewrite dd_append_size, scored_snoc, Hpos, length_app. simpl. lia.
  - split; [exact Hnd|]. split.
    + intros k. rewrite group_of_snoc, Hpos. simpl. now rewrite app_nil_r.
    + now rewrite scored_snoc, Hpos, app_nil_r.
Qed.

Lemma od_get_map_values {K V : Type} (eqb : K -> K -> bool) (f : V -> V)
  (d : odict K V) (k : K) :
  od_get eqb (map (fun kv => (fst kv, f (snd kv))) d) k
  = option_map f (od_get eqb d k).
Proof.
  induction d as [| [k' v] d IH]; simpl; [reflexivity|].
  now destruct (eqb k' k).
Qed.

Lemma od_keys_map_values {K V : Type} (f : V -> V) (d : odict K V) :
  od_keys (map (fun kv => (fst kv, f (snd kv))) d) = od_keys d.
Proof.
  unfold od_keys. rewrite map_map. now apply map_ext.
Qed.

Lemma total_size_sorted (d : odict nat (list Article)) :
  total_size (map (fun kv => (fst kv, sort_published_reverse (snd kv))) d)
  = total_size d.
Proof.
  unfold total_size, od_values. rewrite !map_map. f_equal.
  apply map_ext. intros [k g]. simpl.
  symmetry. apply Permutation_length, sort_published_reverse_perm.
Qed.

(** [rank_articles] returns on every input, and what it returns is known:
    under each score that occurs, the articles with that score in input
    order, sorted. *)
Lemma rank_articles_returns (self : BiomedicalSearcher)
  (articles : list Article) :
  exists ranked,
    rank_articles self articles = Ok ranked
    /\ NoDup (od_keys ranked)
    /\ (forall k, od_get Nat.eqb ranked k
                  = option_map sort_published_reverse
                      (nonempty_opt (group_of self k articles)))
    /\ total_size ranked = List.length (scored self articles).
Proof.
  destruct (foldM_total_invariant (rank_articles_step self) (rank_inv self)
              (rank_inv_step self) articles [] [])
    as [ranked0 [E [Hnd [Hget Hsize]]]].
  { split; [constructor|]. split; [reflexivity|reflexivity]. }
  simpl in Hnd, Hget, Hsize.
  eexists. unfold rank_articles. rewrite E. simpl. split; [reflexivity|].
  split; [now rewrite od_keys_map_values|]. split.
  - intros k. now rewrite od_get_map_values, Hget.
  - now rewrite total_size_sorted.
Qed.

Lemma rank_articles_group (self : BiomedicalSearcher) (articles : list Article)
  (ranked : odict nat (list Article)) (k : nat) (g : list Article) :
  rank_articles self articles = Ok ranked ->
  In (k, g) ranked ->
  g = sort_published_reverse (group_of self k articles)
  /\ group_of self k articles <> [].
Proof.
  intros H Hin.
  destruct (rank_articles_returns self articles) as [r [E [Hnd [Hget _]]]].
  rewrite H in E. injection E as <-.
  apply (In_od_get _ Nat.eqb_eq) in Hin; [|exact Hnd].
  rewrite Hget in Hin.
  destruct (nonempty_opt (group_of self k articles)) as [g0|] eqn:E0;
    [|discriminate].
  apply nonempty_opt_Some in E0. destruct E0 as [-> Hne].
  simpl in Hin. injection Hin as <-. now split.
Qed.

Lemma In_group_of (self : BiomedicalSearcher) (k : nat)
  (articles : list Article) (a : Article) :
  In a (group_of self k articles) ->
  exists a0,
    In a0 articles
    /\ calculate_score self a0 = Ok (k, matched_of self a0)
    /\ k = List.length (matched_of self a0)
    /\ 1 <= k
    /\ a = set_score a0 k (matched_of self a0).
Proof.
  unfold group_of, scored. intros H. apply filter_In in H.
  destruct H as [H Hk]. apply in_map_iff in H.
  destruct H as [a0 [<- H]]. apply filter_In in H. destruct H as [Hin Hpos].
  rewrite positive_eq in Hpos. apply Nat.ltb_lt in Hpos.
  rewrite scored_article_eq in *. unfold has_score in Hk. simpl in Hk.
  apply Nat.eqb_eq in Hk. exists a0. rewrite calculate_score_eq, <- Hk.
  repeat split; [exact Hin|lia].
Qed.

(** C2: every article of every group of the ranking carries the matched
    keywords that [calculate_score] found for it and their number as its
    score, and that number is at least 1. *)
Theorem rank_articles_score_sound (self : BiomedicalSearcher)
  (articles : list Article) (ranked : odict nat (list Article))
  (k : nat) (g : list Article) (a : Article) :
  rank_articles self articles = Ok ranked ->
  In (k, g) ranked ->
  In a g ->
  exists matched,
    matched_keywords a = Some matched
    /\ score a = Some (List.length matched)
    /\ 1 <= List.length matched
    /\ exists a0, In a0 articles
                  /\ calculate_score self a0 = Ok (List.length matched, matched)
                  /\ a = set_score a0 (List.length matched) matched.
Proof.
  intros H Hin Ha.
  destruct (rank_articles_group _ _ _ _ _ H Hin) as [-> _].
  apply (Permutation_in _ (Permutation_sym (sort_published_reverse_perm _)))
    in Ha.
  apply In_group_of in Ha.
  destruct Ha as [a0 [Hin0 [Hcalc [Hk [Hpos ->]]]]].
  exists (matched_of self a0). simpl. rewrite <- Hk.
  repeat split; try assumption. exists a0. now repeat split.
Qed.

Lemma rank_articles_score_sound_witness :
  exists matched,
    matched_keywords (set_score rec_both 2 ["p53"; "cancer"]) = Some matched
    /\ score (set_score rec_both 2 ["p53"; "cancer"])
       = Some (List.length matched)
    /\ 1 <= List.length matched
    /\ exists a0, In a0 sample_batch
                  /\ calculate_score p53_searcher a0
                     = Ok (List.length matched, matched)
                  /\ set_score rec_both 2 ["p53"; "cancer"]
                     = set_score a0 (List.length matched) matched.
Proof.
  apply (rank_articles_score_sound p53_searcher sample_batch sample_ranked 2
           [set_score rec_both 2 ["p53"; "cancer"]]).
  - reflexivity.
  - right. left. reflexivity.
  - left. reflexivity.
Defined.

(** C4: the ranking is a partition of the articles with a positive score.
    Its keys are distinct; each group is not empty and holds exactly the
    scored articles whose score is its key; every scored article is in the
    group of its score, and an article of a group has that group's key as
    its score; the group sizes add up to the number of articles with a
    positive score. *)
Theorem rank_articles_partition (self : BiomedicalSearcher)
  (articles : list Article) (ranked : odict nat (list Article)) :
  rank_articles self articles = Ok ranked ->
  NoDup (od_keys ranked)
  /\ (forall k g, In (k, g) ranked ->
                  g <> [] /\ Permutation g (group_of self k articles))
  /\ (forall a, In a (scored self articles) ->
                exists s g, score a = Some s /\ In (s, g) ranked /\ In a g)
  /\ (forall k g a, In (k, g) ranked -> In a g -> score a = Some k)
  /\ total_size ranked = List.length (filter (positive self) articles).
Proof.
  intros H.
  destruct (rank_articles_returns self articles) as [r [E [Hnd [Hget Hsize]]]].
  rewrite H in E. injection E as <-.
  split; [exact Hnd|]. split; [|split; [|split]].
  - intros k g Hin.
    destruct (rank_articles_group _ _ _ _ _ H Hin) as [-> Hne].
    split.
    + intros E. apply Hne. apply Permutation_nil. rewrite <- E.
      apply Permutation_sym, sort_published_reverse_perm.
    + apply Permutation_sym, sort_published_reverse_perm.
  - intros a Ha.
    assert (Hs : exists s, score a = Some s).
    { unfold scored in Ha. apply in_map_iff in Ha.
      destruct Ha as [a0 [<- _]]. rewrite scored_article_eq. simpl.
      now eexists. }
    destruct Hs as [s Hs].
    assert (Hg : In a (group_of self s articles)).
    { unfold group_of. apply filter_In. split; [exact Ha|].
      unfold has_score. rewrite Hs. apply Nat.eqb_refl. }
    exists s, (sort_published_reverse (group_of self s articles)).
    split; [exact Hs|]. split.
    + apply (od_get_In _ Nat.eqb_eq). rewrite Hget.
      destruct (group_of self s articles); [destruct Hg|reflexivity].
    + now apply (Permutation_in _ (sort_published_reverse_perm _)).
  - intros k g a Hin Ha.
    destruct (rank_articles_group _ _ _ _ _ H Hin) as [-> _].
    apply (Permutation_in _ (Permutation_sym (sort_published_reverse_perm _)))
      in Ha.
    unfold group_of in Ha. apply filter_In in Ha. destruct Ha as [_ Hk].
    unfold has_score in Hk. destruct (score a) as [s|]; [|discriminate].
    apply Nat.eqb_eq in Hk. now subst.
  - rewrite Hsize. unfold scored. apply length_map.
Qed.

Lemma rank_articles_partition_witness :
  NoDup (od_keys sample_ranked)
  /\ (forall k g, In (k, g) sample_ranked ->
                  g <> [] /\ Permutation g (group_of p53_searcher k sample_batch))
  /\ (forall a, In a (scored p53_searcher sample_batch) ->
                exists s g, score a = Some s /\ In (s, g) sample_ranked
                            /\ In a g)
  /\ (forall k g a, In (k, g) sample_ranked -> In a g -> score a = Some k)
  /\ total_size sample_ranked
     = List.length (filter (positive p53_searcher) sample_batch).
Proof.
  exact (rank_articles_partition p53_searcher sample_batch sample_ranked
           eq_refl).
Defined.

(** C5: each group of the ranking is ordered from the latest date to the
    earliest, and the articles of one date stand in the order in which they
    came in the input. *)
Theorem rank_articles_recency (self : BiomedicalSearcher)
  (articles : list Article) (ranked : odict nat (list Article))
  (k : nat) (g : list Article) :
  rank_articles self articles = Ok ranked ->
  In (k, g) ranked ->
  StronglySorted not_older g
  /\ forall d, filter (published_on d) g
               = filter (published_on d) (group_of self k articles).
Proof.
  intros H Hin. destruct (rank_articles_group _ _ _ _ _ H Hin) as [-> _].
  split; [apply sort_published_reverse_sorted|].
  intros d. apply sort_published_reverse_stable.
Qed.

Lemma rank_articles_recency_witness :
  StronglySorted not_older
    [set_score rec_jun 1 ["p53"]; set_score rec_jan 1 ["p53"];
     set_score rec_jan_bis 1 ["p53"]; set_score rec_dec 1 ["p53"]]
  /\ forall d,
       filter (published_on d)
         [set_score rec_jun 1 ["p53"]; set_score rec_jan 1 ["p53"];
          set_score rec_jan_bis 1 ["p53"]; set_score rec_dec 1 ["p53"]]
       = filter (published_on d) (group_of p53_searcher 1 sample_batch).
Proof.
  apply (rank_articles_recency p53_searcher sample_batch sample_ranked 1).
  - reflexivity.
  - left. reflexivity.
Defined.

(** The specification's recency example: articles of 2024-01-01, 2024-06-01
    and 2023-12-01 in one group come out as June, January, December. *)
Example rank_articles_recency_example :
  rank_articles p53_searcher [rec_jan; rec_jun; rec_dec]
  = Ok [(1, [set_score rec_jun 1 ["p53"]; set_score rec_jan 1 ["p53"];
             set_score rec_dec 1 ["p53"]])].
Proof. reflexivity. Qed.

(** A query that matches nothing gives an empty ranking, not an error. *)
Example rank_articles_empty_example :
  rank_articles p53_searcher [rec_none] = Ok [].
Proof. reflexivity. Qed.

(** X21: an article whose title is missing, [None], the empty string or
    exactly ["N/A"] is in no output: every article of the deduplicated list
    and of every group of the ranking has a title that is a text other than
    these. *)
Theorem sentinel_title_rejected (self : BiomedicalSearcher)
  (all_articles out : list Article) (ranked : odict nat (list Article)) :
  deduplicate all_articles = Ok out ->
  rank_articles self out = Ok ranked ->
  (forall a, In a out -> has_title a)
  /\ (forall k g a, In (k, g) ranked -> In a g -> has_title a).
Proof.
  intros Hd Hr.
  assert (Hout : forall a, In a out -> has_title a).
  { intros a Ha. apply deduplicate_inv in Hd.
    destruct Hd as [unique [-> [_ [Hsurv _]]]].
    apply in_map_iff in Ha. destruct Ha as [[k a'] [E Hin]].
    simpl in E. subst a'. destruct (Hsurv k a Hin) as [Hk _].
    now apply (dedup_key_has_title a k). }
  split; [exact Hout|].
  intros k g a Hin Ha.
  destruct (rank_articles_group _ _ _ _ _ Hr Hin) as [-> _].
  apply (Permutation_in _ (Permutation_sym (sort_published_reverse_perm _)))
    in Ha.
  apply In_group_of in Ha. destruct Ha as [a0 [Hin0 [_ [_ [_ ->]]]]].
  exact (Hout a0 Hin0).
Qed.

Lemma sentinel_title_rejected_witness :
  (forall a, In a [rec_jan] -> has_title a)
  /\ (forall k g a, In (k, g) [(1, [set_score rec_jan 1 ["p53"]])] ->
                    In a g -> has_title a).
Proof.
  exact (sentinel_title_rejected p53_searcher [na_title; rec_jan; no_title]
           [rec_jan] [(1, [set_score rec_jan 1 ["p53"]])] eq_refl eq_refl).
Defined.

(** C6 fails on the code: a title of one space is empty after trimming,
    and the comment of the loop says that articles without a valid title
    are ignored; yet the guard tests the title before it is trimmed, and
    the article is in the deduplicated list, under the empty key, and in
    the ranking. *)
Lemma blank_title_survives :
  text_of (title blank_title) = " "
  /\ strip " " = ""
  /\ deduplicate [blank_title] = Ok [blank_title]
  /\ rank_articles p53_searcher [blank_title]
     = Ok [(1, [set_score blank_title 1 ["p53"]])].
Proof. repeat split. Qed.

(** ** Dates of PubMed records *)

Lemma parse_month_numeric (s : string) (n : Z) :
  int_of_str s = Some n -> _parse_month (PyStr s) = Ok n.
Proof.
  intros H. unfold _parse_month, py_int. now rewrite H.
Qed.

Lemma parse_month_name (s : string) :
  int_of_str s = None ->
  _parse_month (PyStr s)
  = Ok match od_get String.eqb months (substring 0 3 (lower s)) with
       | Some n => n
       | None => 1%Z
       end.
Proof.
  intros H. unfold _parse_month, py_int. rewrite H.
  unfold py_lower, bind.
  now destruct (od_get String.eqb months (substring 0 3 (lower s))).
Qed.

Lemma substring_0_length (n : nat) (s : string) :
  String.length (substring 0 n s) <= n.
Proof.
  revert s; induction n as [| n IH]; intros [| c s]; simpl; try lia.
  specialize (IH s). lia.
Qed.







(** Month names are read by their first three characters, in any case. *)
Example parse_month_examples :
  _parse_month (PyStr "Sep") = Ok 9%Z
  /\ _parse_month (PyStr "SEPTEMBER") = Ok 9%Z
  /\ _parse_month (PyStr "september") = Ok 9%Z
  /\ _parse_month (PyStr " 9 ") = Ok 9%Z.
Proof. repeat split. Qed.

(** ** Entry points *)

(** The command line refuses an empty keyword list and a window of zero or
    fewer days. *)
Lemma main_rejects (args_keywords : list string) (args_days : Z) :
  args_keywords = [] \/ (args_days <= 0)%Z ->
  exists msg, main args_keywords args_days = Rejected msg.
Proof.
  intros H. unfold main. destruct (args_days <=? 0)%Z eqn:E; [now eexists|].
  destruct H as [->|H]; [now eexists|].
  apply Z.leb_gt in E. lia.
Qed.

(** The window refuses an empty keyword list. *)
Lemma start_search_rejects_no_keywords (self : ModernDarkGUI)
  (current_year : Z) :
  keywords_list self = [] ->
  exists msg, start_search self current_year = Rejected msg.
Proof.
  intros H. unfold start_search, validate_inputs. rewrite H. now eexists.
Qed.

(** In the mode of a number of days, with no export asked for, the window
    starts the search with whatever number the field holds. *)
Lemma start_search_days_mode (self : ModernDarkGUI) (current_year : Z) :
  keywords_list self <> [] ->
  year_mode_var self = "days" ->
  save_var self = false ->
  start_search self current_year
  = AdaptersInvoked (__init__ (keywords_list self) (days_var self)).
Proof.
  intros Hk Hm Hs. unfold start_search, validate_inputs, perform_search,
    calculate_days.
  destruct (keywords_list self) as [| kw kws]; [contradiction|].
  now rewrite Hm, Hs.
Qed.

(** C9 fails in the window: with one keyword and 0 typed as the number of
    days, [main] refuses the query and [start_search] calls the adapters. *)
Theorem start_search_zero_days :
  (days_var gui_zero_days <= 0)%Z
  /\ main (keywords_list gui_zero_days) (days_var gui_zero_days)
     = Rejected "--days must be a positive number"
  /\ validate_inputs gui_zero_days = None
  /\ start_search gui_zero_days 2026 = AdaptersInvoked (__init__ ["p53"] 0).
Proof.
  repeat split. discriminate.
Qed.

(** A range of years that starts after the current year gives a negative
    window, and the window starts the search with it. *)
Example start_search_future_range :
  start_search gui_future_range 2026
  = AdaptersInvoked (__init__ ["p53"] (-1430)).
Proof. reflexivity. Qed.

(** * Further properties of the code *)

(** ** More on strings *)

Lemma str_length_app (s1 s2 : string) :
  String.length (s1 ++ s2)%string = String.length s1 + String.length s2.
Proof.
  induction s1 as [| c s1 IH]; simpl; [reflexivity|]. now rewrite IH.
Qed.

Lemma str_app_assoc (s1 s2 s3 : string) :
  ((s1 ++ s2) ++ s3 = s1 ++ (s2 ++ s3))%string.
Proof.
  induction s1 as [| c s1 IH]; simpl; [reflexivity|]. now rewrite IH.
Qed.

Lemma substring_0_all (n : nat) (s : string) :
  String.length s <= n -> substring 0 n s = s.
Proof.
  revert s; induction n as [| n IH]; intros [| c s]; simpl; try reflexivity.
  - lia.
  - intros H. rewrite IH; [reflexivity|lia].
Qed.

Lemma substring_0_exact (n : nat) (s : string) :
  n <= String.length s -> String.length (substring 0 n s) = n.
Proof.
  revert s; induction n as [| n IH]; intros [| c s]; simpl; try lia.
  intros H. rewrite IH; lia.
Qed.

Lemma contains_app_l (n h x : string) :
  contains n h = true -> contains n (h ++ x)%string = true.
Proof.
  intros H. apply contains_iff in H. destruct H as [pre [post ->]].
  apply contains_iff. exists pre, (post ++ x)%string.
  now rewrite !str_app_assoc.
Qed.

Lemma contains_app_r (n h x : string) :
  contains n h = true -> contains n (x ++ h)%string = true.
Proof.
  intros H. apply contains_iff in H. destruct H as [pre [post ->]].
  apply contains_iff. exists (x ++ pre)%string, post.
  now rewrite !str_app_assoc.
Qed.

Lemma lstrip_head (s : string) :
  lstrip s = EmptyString
  \/ exists c r, lstrip s = String c r /\ is_space c = false.
Proof.
  induction s as [| c s IH]; simpl; [now left|].
  destruct (is_space c) eqn:E; [exact IH|].
  right. now exists c, s.
Qed.

Lemma rstrip_cons (c : ascii) (r : string) :
  rstrip (String c r)
  = match rstrip r with
    | EmptyString => if is_space c then EmptyString else String c EmptyString
    | String d r' => String c (String d r')
    end.
Proof. reflexivity. Qed.

Lemma rstrip_idem (s : string) : rstrip (rstrip s) = rstrip s.
Proof.
  induction s as [| c s IH]; [reflexivity|].
  rewrite (rstrip_cons c s). destruct (rstrip s) as [| d r] eqn:E.
  - destruct (is_space c) eqn:Ec; [reflexivity|].
    rewrite rstrip_cons. cbn [rstrip]. now rewrite Ec.
  - rewrite rstrip_cons, IH. reflexivity.
Qed.

Lemma rstrip_head (c : ascii) (r : string) :
  is_space c = false ->
  exists r', rstrip (String c r) = String c r'.
Proof.
  intros Hc. cbn [rstrip]. destruct (rstrip r) as [| d r'].
  - rewrite Hc. now eexists.
  - now eexists.
Qed.

(** [strip] leaves a stripped string as it is. *)
Lemma strip_idem (s : string) : strip (strip s) = strip s.
Proof.
  unfold strip. destruct (lstrip_head s) as [E|[c [r [E Hc]]]]; rewrite E.
  - reflexivity.
  - destruct (rstrip_head c r Hc) as [r' E']. rewrite E'.
    cbn [lstrip]. rewrite Hc. rewrite <- E'. apply rstrip_idem.
Qed.

(** ** The PubMed adapter *)

Lemma chunks_concat {A : Type} (n k : nat) (l : list A) :
  List.length l <= n * k ->
  List.concat (map (fun i => py_slice l i (i + n))
            (map (fun j => 0 + n * j) (seq 0 k))) = l.
Proof.
  revert l; induction k as [| k IH]; intros l Hlen.
  - destruct l; [reflexivity|simpl in Hlen; lia].
  - cbn [seq map List.concat]. rewrite <- seq_shift, !map_map.
    unfold py_slice at 1. rewrite Nat.mul_0_r. cbn [Nat.add skipn].
    replace (n - 0) with n by lia.
    transitivity (firstn n l ++ skipn n l); [|apply firstn_skipn]. f_equal.
    etransitivity; [|apply (IH (skipn n l)); rewrite length_skipn; lia].
    rewrite map_map. f_equal. apply map_ext. intros j.
    unfold py_slice. rewrite skipn_skipn. f_equal; [lia|f_equal; lia].
Qed.

Lemma range_covers (len step : nat) :
  0 < step -> len <= step * ((len - 0 + step - 1) / step).
Proof.
  intros Hs. set (a := len - 0 + step - 1).
  assert (H := Nat.div_mod_eq a step).
  assert (H' := Nat.mod_upper_bound a step). subst a. lia.
Qed.

Lemma range_starts_inside (len step j : nat) :
  0 < step -> j < (len - 0 + step - 1) / step -> step * j < len.
Proof.
  intros Hs Hj. set (a := len - 0 + step - 1) in *.
  assert (H := Nat.Div0.mul_div_le a step). subst a. nia.
Qed.

(** X1: the batches of PubMed identifiers cover the list of identifiers:
    put end to end they are the list, so every identifier is fetched once
    and in order, and each batch holds between 1 and 50 identifiers. *)
Theorem search_pubmed_batches_cover (id_list : list string) :
  List.concat (search_pubmed_batches id_list) = id_list
  /\ Forall (fun batch_ids => 1 <= List.length batch_ids <= 50)
       (search_pubmed_batches id_list).
Proof.
  unfold search_pubmed_batches, py_range. split.
  - apply chunks_concat. apply range_covers. lia.
  - apply Forall_forall. intros b Hb.
    apply in_map_iff in Hb. destruct Hb as [i [<- Hi]].
    apply in_map_iff in Hi. destruct Hi as [j [<- Hj]].
    apply in_seq in Hj.
    assert (H : 50 * j < List.length id_list).
    { apply range_starts_inside; lia. }
    unfold py_slice. rewrite length_firstn, length_skipn. lia.
Qed.

Lemma fold_left_length_le {A B : Type} (f : list B -> A -> list B) :
  (forall acc x, List.length (f acc x) <= S (List.length acc)) ->
  forall l acc,
    List.length (fold_left f l acc) <= List.length acc + List.length l.
Proof.
  intros Hf l; induction l as [| x l IH]; intros acc; simpl; [lia|].
  specialize (IH (f acc x)). specialize (Hf acc x). lia.
Qed.

Lemma author_names_filter (l : list AuthorElem) (acc : list pyval) :
  List.length
    (fold_left
       (fun authors author =>
          match LastName author with
          | Some lastname_text =>
              let name :=
                match ForeName author with
                | Some forename_text =>
                    PyStr (py_format forename_text ++ " "
                           ++ py_format lastname_text)%string
                | None => lastname_text
                end in
              authors ++ [name]
          | None => authors
          end) l acc)
  = List.length acc + List.length (filter has_LastName l).
Proof.
  revert acc; induction l as [| x l IH]; intros acc; cbn [fold_left filter].
  - cbn [List.length]. lia.
  - unfold has_LastName at 1. destruct (LastName x).
    + rewrite IH, length_app. cbn [List.length]. lia.
    + apply IH.
Qed.

Lemma author_names_In (l : list AuthorElem) (acc : list pyval)
  (author : AuthorElem) (lastname_text : pyval) :
  In author l ->
  LastName author = Some lastname_text ->
  In (match ForeName author with
      | Some forename_text =>
          PyStr (py_format forename_text ++ " "
                 ++ py_format lastname_text)%string
      | None => lastname_text
      end)
    (fold_left
       (fun authors author =>
          match LastName author with
          | Some lastname_text =>
              let name :=
                match ForeName author with
                | Some forename_text =>
                    PyStr (py_format forename_text ++ " "
                           ++ py_format lastname_text)%string
                | None => lastname_text
                end in
              authors ++ [name]
          | None => authors
          end) l acc).
Proof.
  intros Hin Hl.
  assert (Hkeep : forall l0 acc0 v, In v acc0 ->
            In v (fold_left
                    (fun authors author =>
                       match LastName author with
                       | Some lastname_text =>
                           let name :=
                             match ForeName author with
                             | Some forename_text =>
                                 PyStr (py_format forename_text ++ " "
                                        ++ py_format lastname_text)%string
                             | None => lastname_text
                             end in
                           authors ++ [name]
                       | None => authors
                       end) l0 acc0)).
  { intros l0; induction l0 as [| y l0 IH0]; intros acc0 v Hv;
      cbn [fold_left]; [exact Hv|].
    apply IH0. destruct (LastName y); [|exact Hv].
    apply in_or_app. now left. }
  revert acc; induction l as [| x l IH]; intros acc; [destruct Hin|].
  cbn [fold_left]. destruct Hin as [->|Hin]; [|now apply IH].
  rewrite Hl. apply Hkeep. apply in_or_app. right. now left.
Qed.

(** X2: a PubMed record gets between one and three authors, whatever the
    number of [Author] elements: as many as there are elements with a last
    name among the first three, and the single placeholder ["N/A"] when
    there is none.  Only the first three elements are looked at: an element
    without a last name among them is not made up for by a later one.  An
    element with both names gives the first name, a space and the last
    name; an element with a last name only gives the last name. *)
Theorem search_pubmed_authors_bound (author_elems : list AuthorElem) :
  1 <= List.length (search_pubmed_authors author_elems) <= 3
  /\ search_pubmed_authors author_elems
     = search_pubmed_authors (firstn 3 author_elems)
  /\ List.length (search_pubmed_authors author_elems)
     = Nat.max 1 (List.length (filter has_LastName (firstn 3 author_elems)))
  /\ (filter has_LastName (firstn 3 author_elems) = [] ->
      search_pubmed_authors author_elems = [PyStr "N/A"])
  /\ (forall author lastname_text forename_text,
        In author (firstn 3 author_elems) ->
        LastName author = Some lastname_text ->
        ForeName author = Some forename_text ->
        In (PyStr (py_format forename_text ++ " "
                   ++ py_format lastname_text)%string)
          (search_pubmed_authors author_elems))
  /\ (forall author lastname_text,
        In author (firstn 3 author_elems) ->
        LastName author = Some lastname_text ->
        ForeName author = None ->
        In lastname_text (search_pubmed_authors author_elems)).
Proof.
  assert (Hlen : List.length (search_pubmed_author_names author_elems)
                 = List.length (filter has_LastName (firstn 3 author_elems))).
  { unfold search_pubmed_author_names.
    exact (author_names_filter (firstn 3 author_elems) []). }
  assert (Hle : List.length (filter has_LastName (firstn 3 author_elems)) <= 3).
  { etransitivity; [apply filter_length_le|]. rewrite length_firstn. lia. }
  assert (Hin : forall author lastname_text,
            In author (firstn 3 author_elems) ->
            LastName author = Some lastname_text ->
            In (match ForeName author with
                | Some forename_text =>
                    PyStr (py_format forename_text ++ " "
                           ++ py_format lastname_text)%string
                | None => lastname_text
                end) (search_pubmed_authors author_elems)).
  { intros author l Ha Hl.
    assert (H := author_names_In (firstn 3 author_elems) [] author l Ha Hl).
    change (In (match ForeName author with
                | Some forename_text =>
                    PyStr (py_format forename_text ++ " " ++ py_format l)%string
                | None => l
                end) (search_pubmed_author_names author_elems)) in H.
    unfold search_pubmed_authors.
    destruct (search_pubmed_author_names author_elems); [destruct H|exact H]. }
  split; [|split; [|split; [|split; [|split]]]].
  - unfold search_pubmed_authors.
    destruct (search_pubmed_author_names author_elems) as [| a names];
      cbn [List.length] in *; lia.
  - unfold search_pubmed_authors, search_pubmed_author_names.
    now rewrite firstn_firstn.
  - unfold search_pubmed_authors.
    destruct (search_pubmed_author_names author_elems) as [| a names];
      cbn [List.length] in *; lia.
  - intros E. rewrite E in Hlen. unfold search_pubmed_authors.
    destruct (search_pubmed_author_names author_elems); [reflexivity|].
    discriminate.
  - intros author l f Ha Hl Hf. specialize (Hin author l Ha Hl).
    now rewrite Hf in Hin.
  - intros author l Ha Hl Hf. specialize (Hin author l Ha Hl).
    now rewrite Hf in Hin.
Qed.

(** Three elements, the second without a last name, and a fourth with
    one: two authors come out. *)
Example search_pubmed_authors_example :
  search_pubmed_authors
    [author_full; author_collective; author_last_only; author_full]
  = [PyStr "Marie Curie"; PyStr "Consortium"].
Proof. reflexivity. Qed.

Lemma abstract_parts_nonempty (texts : list pyval) (acc : list string) :
  Forall (fun s => s <> "") acc ->
  Forall (fun s => s <> "")
    (fold_left
       (fun parts text =>
          match text with
          | PyStr s => if truthy text then parts ++ [s] else parts
          | PyNone => parts
          end) texts acc).
Proof.
  revert acc; induction texts as [| t texts IH]; intros acc Hacc;
    cbn [fold_left]; [exact Hacc|].
  destruct t as [| s]; [now apply IH|].
  cbn [truthy]. destruct (s =? "")%string eqn:E; cbn [negb]; [now apply IH|].
  apply IH. apply Forall_app. split; [exact Hacc|].
  constructor; [|constructor]. intros ->. discriminate.
Qed.

Lemma concat_nonempty (sep : string) (l : list string) :
  l <> [] -> Forall (fun s => s <> "") l -> String.concat sep l <> "".
Proof.
  destruct l as [| x l]; [contradiction|]. intros _ H.
  inversion H as [| ? ? Hx _]; subst.
  destruct x as [| c x]; [contradiction|].
  simpl. destruct l; discriminate.
Qed.

Lemma abstract_parts_eq (abstract_texts : list pyval) (acc : list string) :
  fold_left
    (fun parts text =>
       match text with
       | PyStr s => if truthy text then parts ++ [s] else parts
       | PyNone => parts
       end) abstract_texts acc
  = acc ++ text_parts abstract_texts.
Proof.
  revert acc; induction abstract_texts as [| t l IH]; intros acc;
    cbn [fold_left]; [now rewrite app_nil_r|].
  rewrite IH. unfold text_parts. cbn [flat_map].
  destruct t as [| s]; [reflexivity|].
  cbn [truthy]. destruct (s =? "")%string; cbn [negb]; [reflexivity|].
  now rewrite <- app_assoc.
Qed.

Lemma text_parts_none (abstract_texts : list pyval) :
  Forall (fun text => truthy text = false) abstract_texts ->
  text_parts abstract_texts = [].
Proof.
  unfold text_parts. induction 1 as [| t l Ht _ IH]; [reflexivity|].
  cbn [flat_map]. rewrite IH. destruct t as [| s]; [reflexivity|].
  cbn [truthy] in Ht. destruct (s =? "")%string; [reflexivity|discriminate].
Qed.

(** X3: the abstract of a PubMed record is never the empty string: it is
    the placeholder when no [AbstractText] element has text, and otherwise
    the texts that are not empty, joined by one space. *)
Theorem search_pubmed_abstract_nonempty (abstract_texts : list pyval) :
  search_pubmed_abstract abstract_texts <> ""
  /\ (Forall (fun text => truthy text = false) abstract_texts ->
      search_pubmed_abstract abstract_texts = "[No abstract available]")
  /\ (text_parts abstract_texts = [] ->
      search_pubmed_abstract abstract_texts = "[No abstract available]")
  /\ (text_parts abstract_texts <> [] ->
      search_pubmed_abstract abstract_texts
      = String.concat " " (text_parts abstract_texts)).
Proof.
  assert (E : search_pubmed_abstract abstract_texts
              = match text_parts abstract_texts with
                | [] => "[No abstract available]"
                | _ :: _ => String.concat " " (text_parts abstract_texts)
                end).
  { unfold search_pubmed_abstract. now rewrite abstract_parts_eq. }
  split; [|split; [|split]].
  - unfold search_pubmed_abstract.
    assert (H := abstract_parts_nonempty abstract_texts [] (Forall_nil _)).
    destruct (fold_left _ abstract_texts []) as [| p parts] eqn:E';
      [discriminate|].
    apply concat_nonempty; [discriminate|exact H].
  - intros Hall. now rewrite E, (text_parts_none abstract_texts Hall).
  - intros H. now rewrite E, H.
  - intros H. rewrite E. destruct (text_parts abstract_texts);
      [contradiction|reflexivity].
Qed.

(** Two texts around an element without text *)
Example search_pubmed_abstract_example :
  search_pubmed_abstract [PyStr "Background."; PyNone; PyStr ""; PyStr "Results."]
  = "Background. Results.".
Proof. reflexivity. Qed.

Lemma months_range (key : string) (n : Z) :
  od_get String.eqb months key = Some n -> (1 <= n <= 12)%Z.
Proof.
  unfold months. cbn [od_get].
  repeat match goal with
         | |- context [String.eqb ?k key] =>
             destruct (String.eqb k key);
             [intros [= <-]; lia|]
         end.
  discriminate.
Qed.

(** X4: [_parse_month] returns a month for every text, and when the text
    is not an integer the month lies between 1 and 12: a month name never
    makes the date of a record fail. *)
Theorem parse_month_text (s : string) :
  exists m,
    _parse_month (PyStr s) = Ok m
    /\ (int_of_str s = None -> (1 <= m <= 12)%Z).
Proof.
  destruct (int_of_str s) as [n|] eqn:E.
  - exists n. split; [now apply parse_month_numeric|discriminate].
  - rewrite (parse_month_name s E).
    destruct (od_get String.eqb months (substring 0 3 (lower s))) as [n|] eqn:E'.
    + exists n. split; [reflexivity|]. intros _. now apply (months_range _ _ E').
    + exists 1%Z. split; [reflexivity|lia].
Qed.

(** ** The bioRxiv adapter and the scorer *)

Lemma contains_joined_false (kw t a : string) :
  contains kw (t ++ " " ++ a)%string = false ->
  contains kw t = false /\ contains kw a = false.
Proof.
  intros H. split.
  - destruct (contains kw t) eqn:E; [|reflexivity].
    apply (contains_app_l kw t (" " ++ a)%string) in E. congruence.
  - destruct (contains kw a) eqn:E; [|reflexivity].
    apply (contains_app_r kw a (t ++ " ")%string) in E.
    rewrite str_app_assoc in E. congruence.
Qed.

(** X5: the filter of the bioRxiv adapter drops only what the ranking
    would drop: when [has_keyword] is false for a preprint, the article
    made of its title and abstract has score 0. *)
Theorem search_biorxiv_filter_sound (self : BiomedicalSearcher)
  (paper_title paper_abstract : option pyval) (article : Article) :
  search_biorxiv_has_keyword self paper_title paper_abstract = Ok false ->
  title article = Some (dict_get_default paper_title "N/A") ->
  abstract article = Some (dict_get_default paper_abstract "[No abstract]") ->
  calculate_score self article = Ok (0, []).
Proof.
  unfold search_biorxiv_has_keyword. intros H Ht Ha.
  destruct (dict_get_default paper_title "N/A") as [| t]; [discriminate|].
  destruct (dict_get_default paper_abstract "[No abstract]") as [| a];
    [discriminate|].
  simpl in H. injection H as H.
  rewrite calculate_score_eq.
  assert (E : matched_of self article = []).
  { unfold matched_of. rewrite Ht, Ha. simpl.
    induction (keywords self) as [| kw kws IH]; [reflexivity|].
    simpl in H. apply orb_false_iff in H. destruct H as [Hkw Hrest].
    apply contains_joined_false in Hkw. destruct Hkw as [H1 H2].
    simpl. rewrite H1, H2. simpl. now apply IH. }
  now rewrite E.
Qed.

Lemma search_biorxiv_filter_sound_witness :
  calculate_score p53_searcher rec_none = Ok (0, []).
Proof.
  exact (search_biorxiv_filter_sound p53_searcher (Some (PyStr "Unrelated"))
           (Some (PyStr "nothing here")) rec_none eq_refl eq_refl eq_refl).
Defined.

(** The converse fails: a keyword may be found across the space that joins
    title and abstract, and the adapter then keeps a preprint with score
    0. *)
Example search_biorxiv_filter_keeps_more :
  let self := __init__ ["cell death"] 30 in
  search_biorxiv_has_keyword self (Some (PyStr "Types of cell"))
    (Some (PyStr "Death is studied"))
  = Ok true
  /\ calculate_score self
       (sample_article "Types of cell" "Death is studied" "bioRxiv"
          (sample_date 2024 1 1))
     = Ok (0, []).
Proof. split; reflexivity. Qed.

(** X7: the score adds up over the keyword list: the score for two lists
    put together is the sum of the two scores, so a keyword that stands
    twice in the list, or in two spellings that differ in case only, is
    counted twice. *)
Theorem calculate_score_app (raw1 raw2 : list string) (d : Z)
  (article : Article) (s1 s2 : nat) (m1 m2 : list string) :
  calculate_score (__init__ raw1 d) article = Ok (s1, m1) ->
  calculate_score (__init__ raw2 d) article = Ok (s2, m2) ->
  calculate_score (__init__ (raw1 ++ raw2) d) article
  = Ok (s1 + s2, m1 ++ m2).
Proof.
  rewrite !calculate_score_eq. intros [= <- <-] [= <- <-].
  unfold matched_of, __init__. simpl.
  now rewrite map_app, filter_app, length_app.
Qed.

Lemma calculate_score_app_witness :
  calculate_score (__init__ (["P53"] ++ ["p53"]) 30) rec_jan
  = Ok (1 + 1, ["p53"] ++ ["p53"]).
Proof.
  exact (calculate_score_app ["P53"] ["p53"] 30 rec_jan 1 1 ["p53"] ["p53"]
           eq_refl eq_refl).
Defined.

(** ** More on the ranking *)

Lemma matched_of_length (self : BiomedicalSearcher) (a : Article) :
  List.length (matched_of self a) <= List.length (keywords self).
Proof. unfold matched_of. apply filter_length_le. Qed.

(** X6: the keys of a ranking lie between 1 and the number of keywords,
    and so there are at most as many groups as keywords. *)
Theorem rank_articles_keys_bound (self : BiomedicalSearcher)
  (articles : list Article) (ranked : odict nat (list Article)) :
  rank_articles self articles = Ok ranked ->
  (forall k g, In (k, g) ranked -> 1 <= k <= List.length (keywords self))
  /\ List.length ranked <= List.length (keywords self).
Proof.
  intros H.
  assert (Hk : forall k g, In (k, g) ranked ->
                           1 <= k <= List.length (keywords self)).
  { intros k g Hin.
    destruct (rank_articles_group _ _ _ _ _ H Hin) as [_ Hne].
    destruct (group_of self k articles) as [| a grp] eqn:E; [contradiction|].
    assert (Ha : In a (group_of self k articles)) by (rewrite E; now left).
    apply In_group_of in Ha. destruct Ha as [a0 [_ [_ [-> [Hpos _]]]]].
    split; [exact Hpos|apply matched_of_length]. }
  split; [exact Hk|].
  destruct (rank_articles_returns self articles) as [r [E [Hnd _]]].
  rewrite H in E. injection E as <-.
  replace (List.length ranked) with (List.length (od_keys ranked))
    by apply length_map.
  rewrite <- (length_seq (List.length (keywords self)) 1).
  apply NoDup_incl_length; [exact Hnd|].
  intros k Hin. apply in_map_iff in Hin. destruct Hin as [[k' g] [<- Hin]].
  apply in_seq. specialize (Hk k' g Hin). simpl. lia.
Qed.

Lemma rank_articles_keys_bound_witness :
  (forall k g, In (k, g) sample_ranked ->
               1 <= k <= List.length (keywords p53_searcher))
  /\ List.length sample_ranked <= List.length (keywords p53_searcher).
Proof.
  exact (rank_articles_keys_bound p53_searcher sample_batch sample_ranked
           eq_refl).
Defined.

(** ** More on the deduplication *)

Lemma existsb_keys (unique : odict string Article) (k : string) :
  existsb (String.eqb k) (od_keys unique)
  = match od_get String.eqb unique k with
    | Some _ => true
    | None => false
    end.
Proof.
  induction unique as [| [k' a] u IH]; simpl; [reflexivity|].
  rewrite (String.eqb_sym k k'). now destruct (k' =? k)%string.
Qed.

Lemma keys_in_order_snoc (p : list Article) (a : Article) :
  keys_in_order (p ++ [a])
  = match dedup_key a with
    | Some k =>
        if existsb (String.eqb k) (keys_in_order p) then keys_in_order p
        else keys_in_order p ++ [k]
    | None => keys_in_order p
    end.
Proof. unfold keys_in_order. now rewrite fold_left_app. Qed.

Lemma search_all_step_keys (p : list Article)
  (unique unique' : odict string Article) (art : Article) :
  od_keys unique = keys_in_order p ->
  search_all_step unique art = Ok unique' ->
  od_keys unique' = keys_in_order (p ++ [art]).
Proof.
  intros Hkeys Hstep. rewrite keys_in_order_snoc, <- Hkeys.
  destruct (dedup_key art) as [k|] eqn:Hk.
  - rewrite (search_all_step_keep _ _ _ Hk) in Hstep.
    rewrite existsb_keys.
    destruct (od_get String.eqb unique k) as [stored|] eqn:Hget.
    + destruct (py_len (get_abstract art)) as [n|]; [|discriminate].
      destruct (py_len (get_abstract stored)) as [m|]; [|discriminate].
      simpl in Hstep. destruct (m <? n)%nat; injection Hstep as <-;
        [|reflexivity].
      now apply (od_set_keys String.eqb _ _ _ stored).
    + injection Hstep as <-. rewrite (od_set_new String.eqb _ _ _ Hget).
      unfold od_keys. now rewrite map_app.
  - rewrite (search_all_step_skip _ _ Hk) in Hstep. now injection Hstep as <-.
Qed.

Lemma deduplicate_inv_order (all_articles out : list Article) :
  deduplicate all_articles = Ok out ->
  exists unique,
    out = od_values unique
    /\ dedup_inv all_articles unique
    /\ od_keys unique = keys_in_order all_articles.
Proof.
  unfold deduplicate. intros H.
  destruct (foldM search_all_step all_articles []) as [unique|e] eqn:E;
    [|discriminate].
  simpl in H. injection H as <-. exists unique. split; [reflexivity|].
  apply (foldM_invariant search_all_step
           (fun p u => dedup_inv p u /\ od_keys u = keys_in_order p))
    with (l := all_articles) (p := []) (s := []); [|split|exact E].
  - intros p s a s' [Hinv Hkeys] Hstep. split.
    + now apply (dedup_inv_step p s s' a).
    + now apply (search_all_step_keys p s s' a).
  - exact dedup_inv_nil.
  - reflexivity.
Qed.

(** X13: the deduplicated list is in the order in which the keys first
    occur in the input: its keys are [keys_in_order] of the input, and it
    is never longer than the input. *)
Theorem deduplicate_order (all_articles out : list Article) :
  deduplicate all_articles = Ok out ->
  map dedup_key out = map Some (keys_in_order all_articles)
  /\ List.length out <= List.length all_articles.
Proof.
  intros H. apply deduplicate_inv_order in H.
  destruct H as [unique [-> [[_ [Hsurv _]] Hkeys]]].
  split.
  - rewrite <- Hkeys. apply dedup_keys_of_values.
    intros k a Hin. now apply Hsurv.
  - unfold od_values. rewrite length_map.
    rewrite <- (length_map fst unique). fold (od_keys unique).
    rewrite Hkeys. unfold keys_in_order.
    etransitivity; [apply fold_left_length_le|simpl; lia].
    intros acc x. destruct (dedup_key x) as [k|]; [|lia].
    destruct (existsb (String.eqb k) acc); [lia|].
    rewrite length_app. simpl. lia.
Qed.

Lemma deduplicate_order_witness :
  map dedup_key [pubmed_record; rec_jan]
  = map Some (keys_in_order [pubmed_record; rec_jan; europepmc_same; na_title])
  /\ List.length [pubmed_record; rec_jan]
     <= List.length [pubmed_record; rec_jan; europepmc_same; na_title].
Proof.
  exact (deduplicate_order [pubmed_record; rec_jan; europepmc_same; na_title]
           [pubmed_record; rec_jan] eq_refl).
Defined.

Lemma deduplicate_first_list (l1 l2 out : list Article) (x a : Article)
  (k : string) :
  deduplicate (l1 ++ l2) = Ok out ->
  In x l1 -> dedup_key x = Some k ->
  In a out -> dedup_key a = Some k ->
  In a l1 \/ abstract_lt x a.
Proof.
  intros H Hx Hkx Ha Hka. apply deduplicate_inv in H.
  destruct H as [unique [-> [_ [Hsurv _]]]].
  apply in_map_iff in Ha. destruct Ha as [[k' a'] [E Hin]].
  simpl in E. subst a'. destruct (Hsurv k' a Hin) as [Hk' Hs].
  rewrite Hka in Hk'. injection Hk' as <-.
  destruct Hs as [p1 [p2 [Heq [Hbefore _]]]].
  apply app_eq_app in Heq. destruct Heq as [l' [[E1 E2]|[E1 E2]]].
  - destruct l' as [| y l'].
    + right. apply Hbefore; [|exact Hkx]. rewrite app_nil_r in E1.
      now subst p1.
    + injection E2 as <- _. left. rewrite E1. apply in_or_app. right.
      now left.
  - right. apply Hbefore; [|exact Hkx]. rewrite E1. apply in_or_app.
    now left.
Qed.

(** X14: the adapters come in the order PubMed, bioRxiv, Europe PMC, and a
    record of an earlier adapter gives way to a strictly longer abstract
    only.  For a PubMed record and the survivor of its key, the survivor is
    a PubMed record or its abstract is strictly longer; for a bioRxiv
    record and the survivor of its key, the survivor is a PubMed or a
    bioRxiv record or its abstract is strictly longer. *)
Theorem search_all_source_priority (pubmed biorxiv europepmc out : list Article) :
  search_all pubmed biorxiv europepmc = Ok out ->
  (forall x a k,
      In x pubmed -> dedup_key x = Some k ->
      In a out -> dedup_key a = Some k ->
      In a pubmed \/ abstract_lt x a)
  /\ (forall x a k,
        In x biorxiv -> dedup_key x = Some k ->
        In a out -> dedup_key a = Some k ->
        In a pubmed \/ In a biorxiv \/ abstract_lt x a).
Proof.
  unfold search_all. intros H. split.
  - intros x a k. now apply deduplicate_first_list with (l2 := biorxiv ++ europepmc).
  - intros x a k Hx Hkx Ha Hka. rewrite app_assoc in H.
    destruct (deduplicate_first_list (pubmed ++ biorxiv) europepmc out x a k H)
      as [Hin|Hlt]; try assumption.
    + apply in_or_app. now right.
    + apply in_app_or in Hin. destruct Hin as [Hin|Hin]; [now left|].
      right. now left.
    + right. now right.
Qed.

Lemma search_all_source_priority_witness :
  (forall x a k,
      In x [pubmed_record] -> dedup_key x = Some k ->
      In a [pubmed_record] -> dedup_key a = Some k ->
      In a [pubmed_record] \/ abstract_lt x a)
  /\ (forall x a k,
        In x [biorxiv_same] -> dedup_key x = Some k ->
        In a [pubmed_record] -> dedup_key a = Some k ->
        In a [pubmed_record] \/ In a [biorxiv_same] \/ abstract_lt x a).
Proof.
  exact (search_all_source_priority [pubmed_record] [biorxiv_same]
           [europepmc_same] [pubmed_record] eq_refl).
Defined.

(** With abstracts of one length the record of the earlier adapter stays:
    PubMed before bioRxiv, bioRxiv before Europe PMC. *)
Example search_all_ties :
  search_all [pubmed_record] [biorxiv_same] [europepmc_same]
  = Ok [pubmed_record]
  /\ search_all [] [biorxiv_same] [europepmc_same] = Ok [biorxiv_same].
Proof. split; reflexivity. Qed.

(** A longer abstract from a later adapter does replace the record. *)
Example search_all_longer_wins :
  search_all [pubmed_record] [] [europepmc_longer] = Ok [europepmc_longer].
Proof. reflexivity. Qed.

(** ** The whole pipeline *)

Lemma ranked_articles_set (r : odict nat (list Article)) (s : nat)
  (g : list Article) (a : Article) :
  od_get Nat.eqb r s = Some g ->
  Permutation (ranked_articles (od_set Nat.eqb r s (g ++ [a])))
    (ranked_articles r ++ [a]).
Proof.
  unfold ranked_articles, od_values.
  induction r as [| [k' g'] r IH]; simpl; [discriminate|].
  destruct (k' =? s)%nat; simpl.
  - intros [= ->]. rewrite <- !app_assoc. apply Permutation_app_head.
    apply Permutation_app_comm.
  - intros H. rewrite <- app_assoc. apply Permutation_app_head. now apply IH.
Qed.

Lemma ranked_articles_append (r : odict nat (list Article)) (s : nat)
  (a : Article) :
  Permutation (ranked_articles (dd_append r s a)) (ranked_articles r ++ [a]).
Proof.
  unfold dd_append. destruct (od_get Nat.eqb r s) as [g|] eqn:E.
  - now apply ranked_articles_set.
  - rewrite (od_set_new Nat.eqb _ _ _ E).
    unfold ranked_articles, od_values. rewrite map_app, concat_app.
    cbn [map snd List.concat]. now rewrite app_nil_r.
Qed.

Lemma ranked_articles_sorted (r : odict nat (list Article)) :
  Permutation
    (ranked_articles
       (map (fun kv => (fst kv, sort_published_reverse (snd kv))) r))
    (ranked_articles r).
Proof.
  unfold ranked_articles, od_values.
  induction r as [| [k g] r IH]; simpl; [constructor|].
  apply Permutation_app; [|exact IH].
  apply Permutation_sym, sort_published_reverse_perm.
Qed.

Lemma rank_articles_flat (self : BiomedicalSearcher) (articles : list Article)
  (ranked : odict nat (list Article)) :
  rank_articles self articles = Ok ranked ->
  Permutation (ranked_articles ranked) (scored self articles).
Proof.
  destruct (foldM_total_invariant (rank_articles_step self)
              (fun p r => Permutation (ranked_articles r) (scored self p)))
    with (l := articles) (p := @nil Article)
         (s := @nil (nat * list Article)) as [r0 [E HP]].
  - intros p r a HP. rewrite rank_articles_step_eq.
    eexists. split; [reflexivity|]. rewrite scored_snoc.
    destruct (positive self a).
    + rewrite ranked_articles_append. now apply Permutation_app_tail.
    + now rewrite app_nil_r.
  - constructor.
  - unfold rank_articles. rewrite E. simpl. intros [= <-].
    now rewrite ranked_articles_sorted.
Qed.

Lemma dedup_key_scored_article (self : BiomedicalSearcher) (a : Article) :
  dedup_key (scored_article self a) = dedup_key a.
Proof. now rewrite scored_article_eq. Qed.

Lemma NoDup_map_filter {X Y : Type} (key : X -> Y) (keep : X -> bool) :
  forall xs : list X,
    NoDup (map key xs) -> NoDup (map key (filter keep xs)).
Proof.
  intros xs Hxs. induction xs as [| x xs IH]; [exact Hxs|].
  cbn [map filter] in *. apply NoDup_cons_iff in Hxs.
  destruct Hxs as [Hnotin Hnd]. specialize (IH Hnd).
  destruct (keep x); [|exact IH].
  cbn [map]. apply NoDup_cons; [|exact IH].
  intros Hin. apply Hnotin. apply in_map_iff in Hin.
  destruct Hin as [y [E Hy]]. apply filter_In in Hy.
  apply in_map_iff. exists y. now split.
Qed.

(** X15: after deduplication and ranking no work is listed twice: the
    articles of all groups together are the articles of the deduplicated
    list with a positive score, score attached, each once, and no two of
    them have the same key. *)
Theorem pipeline_no_duplicates (self : BiomedicalSearcher)
  (all_articles out : list Article) (ranked : odict nat (list Article)) :
  deduplicate all_articles = Ok out ->
  rank_articles self out = Ok ranked ->
  Permutation (ranked_articles ranked) (scored self out)
  /\ NoDup (map dedup_key (ranked_articles ranked)).
Proof.
  intros Hd Hr. assert (Hp := rank_articles_flat _ _ _ Hr).
  split; [exact Hp|].
  apply (Permutation_NoDup (Permutation_map dedup_key (Permutation_sym Hp))).
  unfold scored. rewrite map_map.
  rewrite (map_ext _ dedup_key (dedup_key_scored_article self)).
  apply NoDup_map_filter.
  apply deduplicate_inv in Hd. destruct Hd as [unique [-> [Hnd [Hsurv _]]]].
  rewrite dedup_keys_of_values; [|intros k a Hin; now apply Hsurv].
  apply Finite.Injective_map_NoDup; [|exact Hnd].
  intros x y E. now injection E.
Qed.

Lemma pipeline_no_duplicates_witness :
  Permutation
    (ranked_articles [(1, [set_score pubmed_record 1 ["p53"];
                           set_score rec_jan 1 ["p53"]])])
    (scored p53_searcher [pubmed_record; rec_jan])
  /\ NoDup
       (map dedup_key
          (ranked_articles [(1, [set_score pubmed_record 1 ["p53"];
                                 set_score rec_jan 1 ["p53"]])])).
Proof.
  exact (pipeline_no_duplicates p53_searcher
           [pubmed_record; rec_jan; europepmc_same; na_title]
           [pubmed_record; rec_jan]
           [(1, [set_score pubmed_record 1 ["p53"];
                 set_score rec_jan 1 ["p53"]])]
           eq_refl eq_refl).
Defined.

(** ** Presentation *)

Lemma insert_reverse_perm (x : nat) (l : list nat) :
  Permutation (x :: l) (insert_reverse x l).
Proof.
  induction l as [| y l IH]; simpl; [reflexivity|].
  destruct (x <? y)%nat; [|reflexivity].
  rewrite perm_swap. now apply perm_skip.
Qed.

Lemma sorted_reverse_perm (l : list nat) : Permutation l (sorted_reverse l).
Proof.
  induction l as [| x l IH]; simpl; [reflexivity|].
  rewrite <- insert_reverse_perm. now apply perm_skip.
Qed.

Lemma insert_reverse_sorted (x : nat) (l : list nat) :
  StronglySorted ge l -> StronglySorted ge (insert_reverse x l).
Proof.
  induction l as [| y l IH]; simpl; intros Hs.
  - repeat constructor.
  - inversion Hs as [| ? ? Hs' Hall]; subst.
    destruct (x <? y)%nat eqn:E.
    + apply Nat.ltb_lt in E. constructor; [now apply IH|].
      apply Forall_forall. intros z Hz.
      apply (Permutation_in _ (Permutation_sym (insert_reverse_perm x l)))
        in Hz.
      destruct Hz as [<-|Hz]; [unfold ge; lia|].
      rewrite Forall_forall in Hall. now apply Hall.
    + apply Nat.ltb_ge in E. constructor; [exact Hs|].
      constructor; [exact E|].
      apply Forall_forall. intros z Hz. rewrite Forall_forall in Hall.
      specialize (Hall z Hz). unfold ge in *. lia.
Qed.

Lemma sorted_reverse_sorted (l : list nat) :
  StronglySorted ge (sorted_reverse l).
Proof.
  induction l as [| x l IH]; simpl; [constructor|].
  now apply insert_reverse_sorted.
Qed.

Lemma sorted_NoDup_strict (l : list nat) :
  StronglySorted ge l -> NoDup l -> StronglySorted gt l.
Proof.
  induction 1 as [| x l Hs IH Hall]; intros Hnd; [constructor|].
  inversion Hnd as [| ? ? Hnotin Hnd']; subst.
  constructor; [now apply IH|].
  apply Forall_forall. intros y Hy. rewrite Forall_forall in Hall.
  specialize (Hall y Hy). assert (x <> y) by (intros ->; contradiction).
  unfold ge, gt in *. lia.
Qed.

(** X10: the groups of a ranking are shown from the highest score down:
    the order of the visit is strictly decreasing and holds every key of
    the ranking once. *)
Theorem display_order_descending (self : BiomedicalSearcher)
  (articles : list Article) (ranked : odict nat (list Article)) :
  rank_articles self articles = Ok ranked ->
  StronglySorted gt (display_order ranked)
  /\ Permutation (od_keys ranked) (display_order ranked).
Proof.
  intros H.
  destruct (rank_articles_returns self articles) as [r [E [Hnd _]]].
  rewrite H in E. injection E as <-.
  unfold display_order. split; [|apply sorted_reverse_perm].
  apply sorted_NoDup_strict; [apply sorted_reverse_sorted|].
  apply (Permutation_NoDup (sorted_reverse_perm _) Hnd).
Qed.

Lemma display_order_descending_witness :
  StronglySorted gt (display_order sample_ranked)
  /\ Permutation (od_keys sample_ranked) (display_order sample_ranked).
Proof.
  exact (display_order_descending p53_searcher sample_batch sample_ranked
           eq_refl).
Defined.

Lemma abstract_cut (limit : nat) (placeholder s : string) :
  String.length placeholder <= limit + 3 ->
  let shown :=
    if negb (s =? "")%string then substring 0 limit s else placeholder in
  let p :=
    if (limit <? String.length s)%nat then (shown ++ "...")%string
    else shown in
  String.length p <= limit + 3
  /\ (s <> "" -> String.length s <= limit -> p = s)
  /\ (limit < String.length s -> p = (substring 0 limit s ++ "...")%string).
Proof.
  intros Hph shown p. subst shown p.
  destruct (limit <? String.length s)%nat eqn:E.
  - apply Nat.ltb_lt in E.
    destruct (s =? "")%string eqn:Es.
    { apply String.eqb_eq in Es. subst s. simpl in E. lia. }
    cbn [negb]. split; [|split].
    + rewrite str_length_app, substring_0_exact; [simpl; lia|lia].
    + intros _ H. lia.
    + reflexivity.
  - apply Nat.ltb_ge in E. split; [|split].
    + destruct (s =? "")%string; cbn [negb]; [lia|].
      assert (H := substring_0_length limit s). lia.
    + intros Hs _. destruct (s =? "")%string eqn:Es.
      * apply String.eqb_eq in Es. contradiction.
      * cbn [negb]. now apply substring_0_all.
    + intros H. lia.
Qed.

Lemma authors_cut (limit keep : nat) (x : string) :
  keep + 3 <= limit ->
  String.length
    (if (limit <? String.length x)%nat
     then (substring 0 keep x ++ "...")%string else x)
  <= limit.
Proof.
  intros H. destruct (limit <? String.length x)%nat eqn:E.
  - apply Nat.ltb_lt in E.
    rewrite str_length_app, substring_0_exact; [simpl; lia|lia].
  - now apply Nat.ltb_ge in E.
Qed.

(** X8: in the terminal the line of the authors has at most 70 characters.
    The preview of an abstract that is text has at most 153 characters: a
    non-empty abstract of at most 150 characters is shown whole, a longer
    one is cut after 150 characters and followed by three dots.  An
    abstract that is [None] makes [display_results] raise [TypeError]. *)
Theorem display_results_lengths (article : Article) :
  String.length (display_results_authors_str article) <= 70
  /\ (forall s, get_abstract article = PyStr s ->
        exists p,
          display_results_abstract_preview article = Ok p
          /\ String.length p <= 153
          /\ (s <> "" -> String.length s <= 150 -> p = s)
          /\ (150 < String.length s ->
              p = (substring 0 150 s ++ "...")%string))
  /\ (get_abstract article = PyNone ->
      display_results_abstract_preview article = Raise TypeError).
Proof.
  split; [|split].
  - unfold display_results_authors_str. apply authors_cut. lia.
  - intros s Hs. unfold display_results_abstract_preview. rewrite Hs.
    eexists. split; [reflexivity|].
    exact (abstract_cut 150 "[No abstract]" s ltac:(simpl; lia)).
  - intros H. unfold display_results_abstract_preview. now rewrite H.
Qed.

(** X16: in the exported document the line of the authors has at most 150
    characters, and the text of an abstract has at most 503: a non-empty
    abstract of at most 500 characters is written whole, a longer one is
    cut after 500 characters and followed by three dots.  An abstract that
    is [None] makes [export] raise [TypeError]. *)
Theorem export_lengths (article : Article) :
  String.length (export_authors_str article) <= 150
  /\ (forall s, get_abstract article = PyStr s ->
        exists p,
          export_abstract_text article = Ok p
          /\ String.length p <= 503
          /\ (s <> "" -> String.length s <= 500 -> p = s)
          /\ (500 < String.length s ->
              p = (substring 0 500 s ++ "...")%string))
  /\ (get_abstract article = PyNone ->
      export_abstract_text article = Raise TypeError).
Proof.
  split; [|split].
  - unfold export_authors_str. apply authors_cut. lia.
  - intros s Hs. unfold export_abstract_text. rewrite Hs.
    eexists. split; [reflexivity|].
    exact (abstract_cut 500 "[No abstract available]" s ltac:(simpl; lia)).
  - intros H. unfold export_abstract_text. now rewrite H.
Qed.

Lemma replace_char_length (old new : ascii) (s : string) :
  String.length (replace_char old new s) = String.length s.
Proof.
  induction s as [| c s IH]; simpl; [reflexivity|]. now rewrite IH.
Qed.

Lemma replace_char_gone (old new : ascii) (s : string) :
  new <> old -> ~ In old (list_ascii_of_string (replace_char old new s)).
Proof.
  intros Hne. induction s as [| c s IH]; simpl; [intros []|].
  intros [H|H]; [|contradiction].
  destruct (c =? old)%char eqn:E.
  - contradiction.
  - apply Ascii.eqb_neq in E. congruence.
Qed.

(** X9: the part of the name of the exported file that comes from the
    keywords has at most 30 characters and no space, and only the first
    three keywords go into it. *)
Theorem keywords_slug_safe (exporter_keywords : list string) :
  String.length (keywords_slug exporter_keywords) <= 30
  /\ ~ In " "%char (list_ascii_of_string (keywords_slug exporter_keywords))
  /\ keywords_slug exporter_keywords
     = keywords_slug (firstn 3 exporter_keywords).
Proof.
  unfold keywords_slug. split; [|split].
  - rewrite replace_char_length. apply substring_0_length.
  - apply replace_char_gone. discriminate.
  - now rewrite firstn_firstn.
Qed.

(** ** The window *)

Lemma split_at {A : Type} (l : list A) (i : nat) :
  i < List.length l ->
  exists x, l = firstn i l ++ x :: skipn (S i) l.
Proof.
  revert i; induction l as [| y l IH]; intros i H; [simpl in H; lia|].
  destruct i as [| i].
  - now exists y.
  - simpl in H. destruct (IH i ltac:(lia)) as [x E].
    exists x. cbn [firstn skipn app]. cbn [skipn] in E. now rewrite <- E.
Qed.

Lemma keyword_step_invariant (kws kws' : list string) (ev : keyword_event) :
  NoDup kws /\ Forall (fun k => k <> "" /\ strip k = k) kws ->
  keyword_step kws ev = Some kws' ->
  NoDup kws' /\ Forall (fun k => k <> "" /\ strip k = k) kws'.
Proof.
  intros [Hnd Hall] Hstep. destruct ev as [entry|selection]; simpl in Hstep.
  - injection Hstep as <-. unfold add_keyword.
    destruct (strip entry =? "")%string eqn:E1; cbn [negb andb];
      [now split|].
    destruct (existsb (String.eqb (strip entry)) kws) eqn:E2; cbn [negb];
      [now split|].
    apply String.eqb_neq in E1.
    assert (Hnotin : ~ In (strip entry) kws).
    { intros Hin. assert (H : existsb (String.eqb (strip entry)) kws = true).
      { apply existsb_exists. exists (strip entry). split; [exact Hin|].
        apply String.eqb_refl. }
      congruence. }
    split.
    + apply NoDup_app; [exact Hnd|repeat constructor; intros []|].
      intros x Hx [<-|[]]. contradiction.
    + apply Forall_app. split; [exact Hall|].
      constructor; [|constructor]. split; [exact E1|apply strip_idem].
  - unfold remove_keyword in Hstep. destruct selection as [| index rest].
    + injection Hstep as <-. now split.
    + destruct (index <? List.length kws)%nat eqn:E; [|discriminate].
      injection Hstep as <-. apply Nat.ltb_lt in E.
      destruct (split_at kws index E) as [x Hx].
      rewrite Hx in Hnd, Hall. split.
      * now apply NoDup_remove_1 in Hnd.
      * apply Forall_app in Hall. destruct Hall as [H1 H2].
        apply Forall_app. split; [exact H1|]. now inversion H2.
Qed.

(** X11: whatever the user adds and removes, starting from the empty list,
    the keyword list of the window holds no keyword twice, no empty
    keyword, and no keyword with white space around it. *)
Theorem keyword_session_invariant (events : list keyword_event)
  (kws : list string) :
  keyword_session [] events = Some kws ->
  NoDup kws /\ Forall (fun k => k <> "" /\ strip k = k) kws.
Proof.
  assert (G : forall evs kws0 kws1,
             NoDup kws0 /\ Forall (fun k => k <> "" /\ strip k = k) kws0 ->
             keyword_session kws0 evs = Some kws1 ->
             NoDup kws1 /\ Forall (fun k => k <> "" /\ strip k = k) kws1).
  { intros evs; induction evs as [| ev evs IH]; intros kws0 kws1 Hinv Hrun.
    - simpl in Hrun. now injection Hrun as <-.
    - simpl in Hrun. destruct (keyword_step kws0 ev) as [kws'|] eqn:E;
        [|discriminate].
      apply (IH kws' kws1); [|exact Hrun].
      now apply (keyword_step_invariant kws0 kws' ev). }
  apply G. split; constructor.
Qed.

Lemma keyword_session_invariant_witness :
  NoDup ["P53"; "breast cancer"]
  /\ Forall (fun k => k <> "" /\ strip k = k) ["P53"; "breast cancer"].
Proof.
  exact (keyword_session_invariant sample_events ["P53"; "breast cancer"]
           eq_refl).
Defined.

(** The keyword list tells spellings apart that [__init__] makes equal:
    the searcher then holds one keyword twice. *)
Example keyword_session_case_variants :
  keyword_session [] [AddKeyword "p53"; AddKeyword "P53"] = Some ["p53"; "P53"]
  /\ keywords (__init__ ["p53"; "P53"] 30) = ["p53"; "p53"].
Proof. split; reflexivity. Qed.

(** When the three fields hold integers, [start_search] ends in one of two
    ways: the input is refused with a message, or the number of days is
    computed and the adapters are called with it for a keyword list that is
    not empty. *)
Lemma start_search_outcome (self : ModernDarkGUI) (current_year : Z) :
  (exists msg, start_search self current_year = Rejected msg)
  \/ (exists d,
        calculate_days self current_year = Ok d
        /\ keywords_list self <> []
        /\ start_search self current_year
           = AdaptersInvoked (__init__ (keywords_list self) d)).
Proof.
  unfold start_search, validate_inputs, perform_search, calculate_days.
  destruct (keywords_list self) as [| kw kws]; [left; now eexists|].
  destruct (year_mode_var self =? "specific")%string eqn:Em.
  - apply String.eqb_eq in Em. rewrite Em. cbn [andb].
    destruct (end_year_var self <? start_year_var self)%Z;
      [left; now eexists|].
    destruct (save_var self && (export_path self =? "")%string);
      [left; now eexists|].
    right. simpl. eexists. split; [reflexivity|]. split; [discriminate|].
    reflexivity.
  - cbn [andb].
    destruct (save_var self && (export_path self =? "")%string);
      [left; now eexists|].
    right. destruct (year_mode_var self =? "days")%string;
      [eexists; split; [reflexivity|split; [discriminate|reflexivity]]|].
    destruct (year_mode_var self =? "years")%string;
      eexists; (split; [reflexivity|split; [discriminate|reflexivity]]).
Qed.

(** ** The empty result *)

Lemma positive_false_score (self : BiomedicalSearcher) (a : Article) :
  positive self a = false <-> calculate_score self a = Ok (0, []).
Proof.
  rewrite positive_eq, calculate_score_eq. split.
  - intros H. apply Nat.ltb_ge in H.
    destruct (matched_of self a); [reflexivity|simpl in H; lia].
  - intros [= H _]. rewrite H. reflexivity.
Qed.

Lemma filter_none {A : Type} (p : A -> bool) (l : list A) :
  (forall a, In a l -> p a = false) -> filter p l = [].
Proof.
  induction l as [| x l IH]; intros H; simpl; [reflexivity|].
  rewrite (H x (or_introl eq_refl)). apply IH.
  intros a Ha. apply H. now right.
Qed.

(** X17: the ranking is empty exactly when no article matches a keyword:
    then [display_results] reports that nothing was found and [export]
    writes no file. *)
Theorem rank_articles_empty_iff (self : BiomedicalSearcher)
  (articles : list Article) (ranked : odict nat (list Article)) :
  rank_articles self articles = Ok ranked ->
  (ranked = []
   <-> forall a, In a articles -> calculate_score self a = Ok (0, [])).
Proof.
  intros H.
  destruct (rank_articles_returns self articles) as [r [E [_ [_ Hsize]]]].
  rewrite H in E. injection E as <-. split.
  - intros -> a Ha. apply positive_false_score.
    unfold total_size, scored in Hsize. simpl in Hsize.
    rewrite length_map in Hsize.
    destruct (positive self a) eqn:Hp; [|reflexivity].
    assert (Hin : In a (filter (positive self) articles))
      by (apply filter_In; now split).
    destruct (filter (positive self) articles); [destruct Hin|discriminate].
  - intros Hall. destruct ranked as [| [k g] ranked]; [reflexivity|].
    exfalso.
    destruct (rank_articles_group _ _ _ _ _ H (or_introl eq_refl)) as [_ Hne].
    apply Hne. unfold group_of, scored.
    rewrite (filter_none (positive self) articles); [reflexivity|].
    intros a Ha. apply positive_false_score. now apply Hall.
Qed.

Lemma rank_articles_empty_iff_witness :
  @nil (nat * list Article) = []
  <-> forall a, In a [rec_none] -> calculate_score p53_searcher a = Ok (0, []).
Proof.
  exact (rank_articles_empty_iff p53_searcher [rec_none] [] eq_refl).
Defined.

(** ** Keys of titles *)

Lemma is_space_lower_char (c : ascii) : is_space (lower_char c) = is_space c.
Proof.
  destruct c as [[] [] [] [] [] [] [] []]; reflexivity.
Qed.

Lemma lower_lstrip (s : string) : lower (lstrip s) = lstrip (lower s).
Proof.
  induction s as [| c s IH]; [reflexivity|].
  cbn [lstrip lower]. rewrite is_space_lower_char.
  destruct (is_space c); [exact IH|reflexivity].
Qed.

Lemma lower_rstrip (s : string) : lower (rstrip s) = rstrip (lower s).
Proof.
  induction s as [| c s IH]; [reflexivity|].
  cbn [lower]. rewrite !rstrip_cons, <- IH, is_space_lower_char.
  destruct (rstrip s) as [| d r]; cbn [lower].
  - now destruct (is_space c).
  - reflexivity.
Qed.

Lemma strip_lower (s : string) : strip (lower s) = lower (strip s).
Proof. unfold strip. now rewrite lower_rstrip, lower_lstrip. Qed.

(** X18: the key of an article is its title without the white space around
    it and in lower case, whichever is done first; the key itself is
    trimmed and in lower case.  Titles that differ in case and in the white
    space around them only are one work. *)
Theorem dedup_key_normal (art : Article) (k : string) :
  dedup_key art = Some k ->
  k = lower (strip (text_of (title art)))
  /\ strip k = k
  /\ lower k = k.
Proof.
  unfold dedup_key. destruct (title art) as [[| s]|]; try discriminate.
  destruct ((s =? "") || (s =? "N/A"))%string; [discriminate|].
  intros [= <-]. cbn [text_of]. split; [apply strip_lower|]. split.
  - apply strip_idem.
  - now rewrite strip_lower, lower_idem.
Qed.

Lemma dedup_key_normal_witness :
  "study x" = lower (strip (text_of (title study_x_long)))
  /\ strip "study x" = "study x"
  /\ lower "study x" = "study x".
Proof.
  exact (dedup_key_normal study_x_long "study x" eq_refl).
Defined.

(** ** Author strings *)

Lemma str_app_nil_r (s : string) : (s ++ "")%string = s.
Proof. induction s as [| c s IH]; simpl; [reflexivity|]. now rewrite IH. Qed.

Lemma str_drop_app (a b : string) : str_drop (String.length a) (a ++ b) = b.
Proof.
  induction a as [| c a IH]; simpl; [now destruct b|]. exact IH.
Qed.

Lemma split_go_nonempty (sep s : string) (skip : nat) (cur : string) :
  split_go sep s skip cur <> [].
Proof.
  revert skip cur; induction s as [| c r IH]; intros skip cur;
    cbn [split_go]; [discriminate|].
  destruct skip; [|apply IH].
  destruct (prefix sep (String c r)); [discriminate|apply IH].
Qed.

Lemma concat_cons (sep x : string) (l : list string) :
  l <> [] ->
  String.concat sep (x :: l) = (x ++ sep ++ String.concat sep l)%string.
Proof. destruct l; [contradiction|reflexivity]. Qed.

(** Joining the pieces of a split with the separator gives the string
    back. *)
Lemma split_go_join (sep s : string) (skip : nat) (cur : string) :
  sep <> "" ->
  String.concat sep (split_go sep s skip cur) = (cur ++ str_drop skip s)%string.
Proof.
  intros Hsep. revert skip cur; induction s as [| c r IH]; intros skip cur.
  - cbn [split_go String.concat]. destruct skip; simpl;
      now rewrite str_app_nil_r.
  - cbn [split_go]. destruct skip as [| k]; [|apply IH].
    cbn [str_drop]. destruct (prefix sep (String c r)) eqn:E.
    + rewrite concat_cons; [|apply split_go_nonempty]. rewrite IH.
      apply prefix_iff in E. destruct E as [post E].
      destruct sep as [| c' sep']; [contradiction|].
      simpl in E. injection E as -> ->.
      replace (String.length (String c' sep') - 1) with (String.length sep')
        by (simpl; lia).
      rewrite str_drop_app. reflexivity.
    + rewrite IH. cbn [str_drop]. rewrite str_app_assoc. reflexivity.
Qed.

Lemma str_snoc_split (cur pre post : string) (c : ascii) :
  (cur ++ String c "")%string = (pre ++ post)%string ->
  post <> "" ->
  exists post0,
    cur = (pre ++ post0)%string /\ post = (post0 ++ String c "")%string.
Proof.
  revert cur; induction pre as [| d pre IH]; intros cur E Hpost.
  - exists cur. split; [reflexivity|now symmetry].
  - destruct cur as [| d' cur].
    + simpl in E. injection E as _ E. destruct pre; [|discriminate].
      simpl in E. now subst post.
    + simpl in E. injection E as -> E.
      destruct (IH cur E Hpost) as [post0 [-> ->]].
      exists post0. now split.
Qed.

Lemma prefix_app_self (sep post x : string) :
  prefix sep ((sep ++ post) ++ x)%string = true.
Proof.
  apply prefix_iff. exists (post ++ x)%string. apply str_app_assoc.
Qed.

(** No piece of a split holds the separator. *)
Lemma split_go_pieces (sep : string) :
  sep <> "" ->
  forall (s : string) (skip : nat) (cur : string),
    (skip = 0 ->
     forall pre post, cur = (pre ++ post)%string -> post <> "" ->
                      prefix sep (post ++ s)%string = false) ->
    (skip <> 0 -> cur = "") ->
    Forall (fun piece => contains sep piece = false)
      (split_go sep s skip cur).
Proof.
  intros Hsep.
  assert (Hfree : forall cur x,
            (forall pre post, cur = (pre ++ post)%string -> post <> "" ->
                              prefix sep (post ++ x)%string = false) ->
            contains sep cur = false).
  { intros cur x HP. destruct (contains sep cur) eqn:E; [|reflexivity].
    apply contains_iff in E. destruct E as [pre [post E]].
    assert (H := HP pre (sep ++ post)%string E).
    rewrite prefix_app_self in H. apply H.
    destruct sep; [contradiction|discriminate]. }
  assert (Hempty : contains sep "" = false).
  { destruct sep; [contradiction|reflexivity]. }
  induction s as [| c r IH]; intros skip cur HP Hcur.
  - cbn [split_go]. constructor; [|constructor].
    destruct skip as [| k].
    + apply (Hfree cur ""). now apply HP.
    + rewrite Hcur; [exact Hempty|discriminate].
  - cbn [split_go]. destruct skip as [| k].
    + specialize (HP eq_refl).
      destruct (prefix sep (String c r)) eqn:E.
      * constructor; [now apply (Hfree cur (String c r))|].
        apply IH; [|reflexivity].
        intros _ pre post Hnil Hpost. exfalso.
        destruct pre; [|discriminate]. simpl in Hnil. now subst post.
      * apply IH; [|intros H; now contradiction H].
        intros _ pre post Hsplit Hpost.
        destruct (str_snoc_split cur pre post c Hsplit Hpost)
          as [post0 [Hc ->]].
        rewrite str_app_assoc. cbn [append].
        destruct post0 as [| d post0]; [exact E|].
        apply (HP pre (String d post0) Hc). discriminate.
    + apply IH.
      * intros _ pre post Hnil Hpost. exfalso.
        rewrite Hcur in Hnil; [|discriminate].
        destruct pre; [|discriminate]. simpl in Hnil. now subst post.
      * intros _. apply Hcur. discriminate.
Qed.

Lemma split_pieces (sep s : string) :
  sep <> "" ->
  Forall (fun piece => contains sep piece = false) (split_go sep s 0 "").
Proof.
  intros Hsep. apply split_go_pieces; [exact Hsep| |intros H; now contradiction H].
  intros _ pre post Hnil Hpost. exfalso.
  destruct pre; [|discriminate]. simpl in Hnil. now subst post.
Qed.

(** X19: a Europe PMC record whose author string is text gets between one
    and three authors: the first three of the pieces into which [", "]
    splits the string.  No piece holds the separator, and joined by [", "]
    again, as [display_results] does, the pieces give the string back, so a
    string of at most three authors is shown as it came.  An author string
    that is [None] raises [AttributeError]. *)
Theorem search_europepmc_authors_spec (authorString : option pyval) :
  (forall s, dict_get_default authorString "N/A" = PyStr s ->
     exists parts author_list,
       py_split (PyStr s) ", " = Ok parts
       /\ search_europepmc_authors authorString = Ok author_list
       /\ author_list = firstn 3 parts
       /\ String.concat ", " parts = s
       /\ Forall (fun piece => contains ", " piece = false) parts
       /\ 1 <= List.length author_list <= 3
       /\ (List.length parts <= 3 -> String.concat ", " author_list = s))
  /\ (authorString = Some PyNone ->
      search_europepmc_authors authorString = Raise AttributeError).
Proof.
  split.
  - intros s Hs. unfold search_europepmc_authors. rewrite Hs.
    exists (split_go ", " s 0 ""), (firstn 3 (split_go ", " s 0 "")).
    assert (Hj : String.concat ", " (split_go ", " s 0 "") = s).
    { rewrite split_go_join; [reflexivity|discriminate]. }
    assert (Hne := split_go_nonempty ", " s 0 "").
    split; [reflexivity|].
    split; [reflexivity|]. split; [reflexivity|]. split; [exact Hj|].
    split; [apply split_pieces; discriminate|].
    split.
    + rewrite length_firstn.
      destruct (split_go ", " s 0 ""); [contradiction|].
      cbn [List.length]. lia.
    + intros Hlen. rewrite firstn_all2; [exact Hj|exact Hlen].
  - intros ->. reflexivity.
Qed.

Lemma Forall_firstn {A : Type} (P : A -> Prop) (n : nat) (l : list A) :
  Forall P l -> Forall P (firstn n l).
Proof.
  intros H. rewrite <- (firstn_skipn n l) in H.
  now apply Forall_app in H.
Qed.

(** X20: a bioRxiv preprint whose author string is text gets between one
    and three authors: the first three of the pieces into which [";"]
    splits the string, each without white space around it.  No piece holds
    a [";"], and joined by [";"] the pieces give the string back.  An
    author string that is [None] raises [AttributeError]. *)
Theorem search_biorxiv_authors_spec (paper_authors : option pyval) :
  (forall s, dict_get_default paper_authors "N/A" = PyStr s ->
     exists parts authors,
       py_split (PyStr s) ";" = Ok parts
       /\ search_biorxiv_authors paper_authors = Ok authors
       /\ authors = map strip (firstn 3 parts)
       /\ String.concat ";" parts = s
       /\ Forall (fun piece => contains ";" piece = false) parts
       /\ 1 <= List.length authors <= 3
       /\ Forall (fun a => strip a = a) authors)
  /\ (paper_authors = Some PyNone ->
      search_biorxiv_authors paper_authors = Raise AttributeError).
Proof.
  split.
  - intros s Hs. unfold search_biorxiv_authors. rewrite Hs.
    exists (split_go ";" s 0 ""), (map strip (firstn 3 (split_go ";" s 0 ""))).
    assert (Hne := split_go_nonempty ";" s 0 "").
    split; [reflexivity|].
    split; [reflexivity|]. split; [reflexivity|]. split.
    { rewrite split_go_join; [reflexivity|discriminate]. }
    split; [apply split_pieces; discriminate|].
    split.
    + rewrite length_map, length_firstn.
      destruct (split_go ";" s 0 ""); [contradiction|].
      cbn [List.length]. lia.
    + apply Forall_forall. intros a Ha. apply in_map_iff in Ha.
      destruct Ha as [x [<- _]]. apply strip_idem.
  - intros ->. reflexivity.
Qed.

Example search_authors_examples :
  search_europepmc_authors (Some (PyStr "Curie M, Meitner L, Noether E, Hopper G"))
  = Ok ["Curie M"; "Meitner L"; "Noether E"]
  /\ search_europepmc_authors None = Ok ["N/A"]
  /\ search_biorxiv_authors (Some (PyStr "Curie, M.; Meitner, L. ;"))
     = Ok ["Curie, M."; "Meitner, L."; ""]
  /\ search_europepmc_authors (Some (PyStr "")) = Ok [""].
Proof. repeat split. Qed.

(** ** Integers read from text *)

(** [int] passes over the white space of C's [isspace] only, and refuses a
    text of more than 4300 digits, which [_parse_month] then reads as a
    month name that it does not know. *)
Example int_of_str_edges :
  int_of_str " 12 " = Some 12%Z
  /\ int_of_str (String (ascii_of_nat 28) "3") = None
  /\ strip (String (ascii_of_nat 28) "3") = "3"
  /\ int_of_str (nines 4300) = Some (10 ^ 4300 - 1)%Z
  /\ int_of_str (nines 4301) = None
  /\ _parse_month (PyStr (nines 4301)) = Ok 1%Z
  /\ search_pubmed_pub_date sample_now (Some (PyStr "2020"))
       (Some (PyStr (nines 4301))) (Some (PyStr "15"))
     = sample_date 2020 1 15.
Proof.
  do 6 (split; [vm_compute; reflexivity|]). vm_compute. reflexivity.
Qed.

(** ** The window with its entry fields *)

(** On fields that hold integers the window with its fields does what the
    window of integers does. *)
Lemma start_search_fields_agrees (self : ModernDarkGUI) (current_year : Z) :
  start_search_fields (fields_of self) current_year
  = gui_outcome_of (start_search self current_year).
Proof.
  unfold start_search_fields, validate_inputs_fields, perform_search_fields,
    calculate_days_fields, start_search, validate_inputs, perform_search,
    calculate_days, fields_of.
  cbn [f_keywords_list f_year_mode_var f_days_var f_years_back_var
       f_start_year_var f_end_year_var f_save_var f_export_path].
  destruct (keywords_list self) as [| kw kws]; [reflexivity|].
  destruct (year_mode_var self =? "specific")%string eqn:Em.
  - apply String.eqb_eq in Em. rewrite Em. cbn [andb].
    destruct (end_year_var self <? start_year_var self)%Z; [reflexivity|].
    destruct (save_var self && (export_path self =? "")%string);
      reflexivity.
  - cbn [andb].
    destruct (save_var self && (export_path self =? "")%string);
      [reflexivity|].
    destruct (year_mode_var self =? "days")%string; [reflexivity|].
    destruct (year_mode_var self =? "years")%string; reflexivity.
Qed.


(** A text that is no number in the field of the days: the error is
    logged and no adapter is called. *)
Example start_search_fields_days_text :
  start_search_fields gui_days_text 2026 = GuiLogged TclError.
Proof. reflexivity. Qed.

(** Records of two works with titles of white space only are filed under
    the one empty key, and one of them is lost. *)
Example blank_titles_merge :
  dedup_key blank_title = Some ""
  /\ dedup_key blank_title_other = Some ""
  /\ deduplicate [blank_title; blank_title_other] = Ok [blank_title_other].
Proof. repeat split. Qed.
